(** * Bookstore recommendations demo: the recommendation core of [app/app.py]

    A shallow embedding of the four store-facing functions of
    [postgresql/bookstore-recommendations-demo/app/app.py]
    ([get_book_rating], [get_book_embedding], [get_book_recommendations],
    [get_rating_analytics]) together with the SQL they send, and the
    properties of the specification stated over them.

    Conventions of the model.
    - A Python value that crosses the driver boundary is a [pyval]; a fetched
      row is a Python tuple, modelled as [list pyval], and [row[i]] is
      [index], which raises [IndexError] out of range.
    - A Python [float] (and a [double precision] of the store) is a [float8]:
      an exact rational or NaN. Arithmetic on the finite values is exact, so
      rounding is not modelled; infinities are not represented (pgvector
      clamps the cosine to [-1,1] and refuses non-finite components).
      A [numeric] of the store (Python [Decimal]) is an exact rational, and
      [AVG] is the exact quotient of the sum by the count.
    - [try: ... except Exception as e: st.error(...); return default] is the
      error monad [result] run by the function, which returns its value
      together with the list of [st.error] calls it made.
    - A table is the list of its rows in the order in which the executor
      scans them. SQL fixes no order for a query without ORDER BY. The
      statement of the recommendations cuts its groups with a LIMIT and has
      no ORDER BY, so which groups it returns depends on the order in which
      the executor emits them (the order of its hash table or of its sort of
      the keys): that order is [group_order], a part of the store of which
      only that it permutes the groups is known. Where an ORDER BY follows
      the GROUP BY, the groups are taken in order of first appearance in the
      scan and the sort keeps ties in it. *)

From Stdlib Require Import String Ascii.
From Stdlib Require Import ZArith QArith Qminmax List Bool Lia Lqa.
From Stdlib Require Import Permutation Sorting.Sorted.
From Stdlib Require DecimalString.
Import ListNotations.

Set Implicit Arguments.

(** ** Python values, exceptions and the output channel *)

(** A Python [float]: finite (exact) or NaN. *)
Inductive float8 : Type :=
| Fin (q : Q)
| NaN.

(** The values the driver hands to the application. *)
#[warnings="-register-all"]
Inductive pyval : Type :=
| PyNone
| PyInt (z : Z)
| PyFloat (f : float8)
| PyDecimal (q : Q)
| PyStr (s : string)
| PyList (l : list pyval)
| PyDate (d : Z).

(** The exceptions that the modelled code can raise. [DatabaseError] stands
    for everything psycopg2 raises (lost connection, failed statement). *)
Inductive exn : Type :=
| DatabaseError
| IndexError
| TypeError
| ValueError.

Inductive result (A : Type) : Type :=
| Ok (a : A)
| Raise (e : exn).

Arguments Ok {A} a.
Arguments Raise {A} e.

Definition bind {A B : Type} (m : result A) (k : A -> result B) : result B :=
  match m with
  | Ok a => k a
  | Raise e => Raise e
  end.

Declare Scope py_scope.
Delimit Scope py_scope with py.
Notation "x <- m ;; k" := (bind m (fun x => k))
  (at level 61, m at next level, right associativity) : py_scope.
Open Scope py_scope.

(** [[f x for x in l]] where [f] may raise: left to right, the first
    exception aborts the comprehension. *)
Fixpoint traverse {A B : Type} (f : A -> result B) (l : list A) : result (list B) :=
  match l with
  | [] => Ok []
  | x :: t => y <- f x ;; ys <- traverse f t ;; Ok (y :: ys)
  end.

(** The [st.error] calls of the module, one constructor per message. *)
Inductive message : Type :=
| ErrorGettingBookEmbedding (e : exn)
| ErrorGettingRecommendations (e : exn)
| ErrorGettingAnalytics (e : exn).

Inductive st_call : Type :=
| st_error (m : message).

(** [row[i]] on a tuple. *)
Definition index (row : list pyval) (i : nat) : result pyval :=
  match nth_error row i with
  | Some v => Ok v
  | None => Raise IndexError
  end.

(** Truth value of a Python object, as [if x] tests it. *)
Definition truthy (v : pyval) : bool :=
  match v with
  | PyNone => false
  | PyInt z => negb (z =? 0)%Z
  | PyFloat (Fin q) => negb (Qeq_bool q 0)
  | PyFloat NaN => true
  | PyDecimal q => negb (Qeq_bool q 0)
  | PyStr s => negb (String.eqb s EmptyString)
  | PyList l => match l with [] => false | _ => true end
  | PyDate _ => true
  end.

(** ** String methods used by the embedding decoder *)

Fixpoint lstrip (p : ascii -> bool) (s : string) : string :=
  match s with
  | EmptyString => EmptyString
  | String c t => if p c then lstrip p t else s
  end.

Fixpoint rstrip (p : ascii -> bool) (s : string) : string :=
  match s with
  | EmptyString => EmptyString
  | String c t =>
      match rstrip p t with
      | EmptyString => if p c then EmptyString else String c EmptyString
      | t' => String c t'
      end
  end.

(** [s.strip(chars)]: characters of the set are removed from both ends. *)
Definition strip_set (p : ascii -> bool) (s : string) : string :=
  lstrip p (rstrip p s).

Definition is_bracket (c : ascii) : bool :=
  (Ascii.eqb c "[" || Ascii.eqb c "]")%bool.

(** ASCII white space as [str.strip()] and [str.isspace] see it: TAB, LF, VT,
    FF, CR, FS, GS, RS, US and SPACE. *)
Definition is_space (c : ascii) : bool :=
  let n := nat_of_ascii c in
  ((9 <=? n) && (n <=? 13) || (28 <=? n) && (n <=? 32))%nat%bool.

(** [s.strip()] *)
Definition strip (s : string) : string := strip_set is_space s.

(** [s.split(sep)] for a one-character separator: always at least one piece. *)
Fixpoint split_on (sep : ascii) (s : string) : list string :=
  match s with
  | EmptyString => [EmptyString]
  | String c t =>
      if Ascii.eqb c sep
      then EmptyString :: split_on sep t
      else match split_on sep t with
           | h :: r => String c h :: r
           | [] => [String c EmptyString]
           end
  end.

(** [s.split(',')] *)
Definition split_comma (s : string) : list string := split_on "," s.

(** ** Sorting

    [list.sort] is stable, also with [reverse=True]; [insert_by before x l]
    puts [x] in front of the first element it may precede, and [x] comes from
    the left of [l], so equal keys keep their order. The same sort is used
    for ORDER BY, whose order among ties SQL leaves open. *)
Section Sort.
Context {A : Type}.
Variable before : A -> A -> bool.

Fixpoint insert_by (x : A) (l : list A) : list A :=
  match l with
  | [] => [x]
  | y :: t => if before x y then x :: y :: t else y :: insert_by x t
  end.

Fixpoint sort_by (l : list A) : list A :=
  match l with
  | [] => []
  | x :: t => insert_by x (sort_by t)
  end.

End Sort.

(** ** The store: SQL operators *)

(** The keys of a GROUP BY, in order of first appearance. *)
Fixpoint distinct {A : Type} (eqb : A -> A -> bool) (l : list A) : list A :=
  match l with
  | [] => []
  | x :: t => x :: filter (fun y => negb (eqb x y)) (distinct eqb t)
  end.

Definition sql_sum (l : list Z) : Z := fold_right Z.add 0%Z l.

(** [AVG] over the non-null inputs: NULL when there is none. *)
Definition sql_avg (l : list Z) : option Q :=
  match l with
  | [] => None
  | _ => Some (inject_Z (sql_sum l) / inject_Z (Z.of_nat (length l)))
  end.

Definition sql_count {A : Type} (l : list A) : Z := Z.of_nat (length l).

(** [LIMIT n]: the count of a LIMIT is a [bigint]. The store refuses a
    negative [n], and an [n] of 2^63 or more, which the driver writes into
    the statement as it does any [int], is out of the range of the type. *)
Definition sql_limit {A : Type} (n : Z) (l : list A) : result (list A) :=
  if ((n <? 0) || (2 ^ 63 <=? n))%Z
  then Raise DatabaseError
  else Ok (firstn (Z.to_nat n) l).

(** A nullable [numeric] and a nullable [double precision] as the driver
    returns them. *)
Definition py_numeric (a : option Q) : pyval :=
  match a with
  | Some q => PyDecimal q
  | None => PyNone
  end.

Definition py_float8 (d : option float8) : pyval :=
  match d with
  | Some f => PyFloat f
  | None => PyNone
  end.

(** [d < 2.0] in a WHERE clause: NULL is not true, and NaN sorts above every
    number. *)
Definition lt_2 (d : option float8) : bool :=
  match d with
  | Some (Fin q) => negb (Qle_bool 2 q)
  | Some NaN => false
  | None => false
  end.

(** Ascending order of [double precision] with NaN last, then NULLS LAST. *)
Definition float8_le (x y : float8) : bool :=
  match x, y with
  | Fin a, Fin b => Qle_bool a b
  | _, NaN => true
  | NaN, Fin _ => false
  end.

Definition nulls_last_le (x y : option float8) : bool :=
  match x, y with
  | Some a, Some b => float8_le a b
  | _, None => true
  | None, Some _ => false
  end.

(** Order of a nullable [numeric], NULL above every number (so that DESC puts
    NULL first). *)
Definition numeric_le (x y : option Q) : bool :=
  match x, y with
  | Some a, Some b => Qle_bool a b
  | _, None => true
  | None, Some _ => false
  end.

(** [DATE(ts)]: the day of a timestamp given in seconds. *)
Definition date (ts : Z) : Z := (ts / 86400)%Z.

(** ** The store: what the repository takes from outside

    The store's [vector] type with its equality, pgvector's cosine distance
    operator [<=>], the value the driver builds from a stored vector,
    Python's [float] on a [str], and the order in which the executor emits
    the groups of [GROUP BY b.id, b.title, b.embedding] when no ORDER BY
    follows: [group_order] takes the keys (id, title, embedding) of the
    groups in order of first appearance in the scan and returns them in the
    order of emission, which is some permutation of them. None of them is
    code of this repository. *)
Class Store : Type := {
  vector : Type;
  vector_eq_dec : forall x y : vector, {x = y} + {x <> y};
  cosine_distance : vector -> vector -> float8;
  adapt_vector : vector -> pyval;
  float_of_str : string -> result float8;
  group_order : list (Z * string * option vector) -> list (Z * string * option vector);
  group_order_perm : forall ks, Permutation ks (group_order ks)
}.

Section Model.
Context `{Store}.

(** Modelled from the spec: the schema of the two tables is not part of the
    sources (only the statements over them are). An item has an identifier,
    a title and an optional embedding; a rating refers to an item and carries
    an integer score and a timestamp (here in seconds), next to the user the
    seeding script inserts with it. *)
Record book : Type := {
  b_id : Z;
  b_title : string;
  b_embedding : option vector
}.

(** Modelled from the spec: a row of the table of ratings, with the columns
    that the statements and the seeding script name. *)
Record rating : Type := {
  r_user_id : Z;
  r_book_id : Z;
  r_rating : Z;
  r_ts : Z
}.

(** The state of the store: the two tables in scan order and [NOW()], in
    seconds as the timestamps. *)
Record database : Type := {
  books : list book;
  ratings : list rating;
  now : Z
}.

Inductive connection : Type :=
| Connected (db : database)
| Lost.

(** [cursor = conn.cursor(); cursor.execute(q); cursor.fetchall()] *)
Definition execute {A : Type} (conn : connection) (q : database -> result A) : result A :=
  match conn with
  | Connected db => q db
  | Lost => Raise DatabaseError
  end.

Definition same_embedding (x y : option vector) : bool :=
  match x, y with
  | Some a, Some b => if vector_eq_dec a b then true else false
  | None, None => true
  | _, _ => false
  end.

(** Equality of the keys of [GROUP BY b.id, b.title, b.embedding]. *)
Definition same_group (x y : book) : bool :=
  ((b_id x =? b_id y)%Z && String.eqb (b_title x) (b_title y)
   && same_embedding (b_embedding x) (b_embedding y))%bool.

(** Equality of the keys of [GROUP BY b.id, b.title]. *)
Definition same_id_title (x y : book) : bool :=
  ((b_id x =? b_id y)%Z && String.eqb (b_title x) (b_title y))%bool.

(** [a <=> b] on nullable operands. *)
Definition distance (a b : option vector) : option float8 :=
  match a, b with
  | Some x, Some y => Some (cosine_distance x y)
  | _, _ => None
  end.

(** [(SELECT embedding FROM books WHERE id = %s)] as a scalar: NULL when no
    row matches, an error of the store when more than one does. *)
Definition reference_embedding (db : database) (ref : Z) : result (option vector) :=
  match filter (fun b => (b_id b =? ref)%Z) (books db) with
  | [] => Ok None
  | [b] => Ok (b_embedding b)
  | _ => Raise DatabaseError
  end.

(** [books b LEFT JOIN ratings r ON b.id = r.book_id] *)
Definition left_join (bs : list book) (rs : list rating) : list (book * option rating) :=
  flat_map (fun b =>
    match filter (fun r => (r_book_id r =? b_id b)%Z) rs with
    | [] => [(b, None)]
    | ms => map (fun r => (b, Some r)) ms
    end) bs.

(** [books b JOIN ratings r ON b.id = r.book_id] *)
Definition inner_join (bs : list book) (rs : list rating) : list (book * rating) :=
  flat_map (fun b =>
    map (fun r => (b, r)) (filter (fun r => (r_book_id r =? b_id b)%Z) rs)) bs.

(** The non-null [r.rating] of the rows of a group. *)
Definition group_ratings (g : list (book * option rating)) : list Z :=
  flat_map (fun j => match snd j with Some r => [r_rating r] | None => [] end) g.

(** The scores of the ratings that refer to an item: [rating] of
    [ratings WHERE book_id = %s]. *)
Definition ratings_of (db : database) (book_id : Z) : list Z :=
  map r_rating (filter (fun r => (r_book_id r =? book_id)%Z) (ratings db)).

(** ** The statements of [app.py] *)

(** [get_book_rating]:
    SELECT AVG(rating), COUNT(rating) FROM ratings WHERE book_id = %s *)
Definition rating_summary_query (book_id : Z) (db : database) : result (list (list pyval)) :=
  let rs := ratings_of db book_id in
  Ok [[py_numeric (sql_avg rs); PyInt (sql_count rs)]].

(** [get_book_embedding]:
    SELECT embedding FROM books WHERE id = %s AND embedding IS NOT NULL *)
Definition embedding_query (book_id : Z) (db : database) : result (list (list pyval)) :=
  Ok (flat_map (fun b =>
        if (b_id b =? book_id)%Z
        then match b_embedding b with
             | Some e => [[adapt_vector e]]
             | None => []
             end
        else []) (books db)).

(** The WHERE clause of the query with an exclusion id. *)
Definition candidate (ref : option vector) (exclude : Z) (b : book) : bool :=
  (match b_embedding b with Some _ => true | None => false end
   && negb (b_id b =? exclude)%Z
   && lt_2 (distance (b_embedding b) ref))%bool.

(** The row that the query with an exclusion id selects for the group of key
    [k], [rows] being the joined rows that passed the WHERE clause. *)
Definition candidate_row (ref : option vector) (rows : list (book * option rating))
  (k : book) : list pyval :=
  let rs := group_ratings (filter (fun j => same_group k (fst j)) rows) in
  [PyInt (b_id k); PyStr (b_title k); py_float8 (distance (b_embedding k) ref);
   py_numeric (sql_avg rs); PyInt (sql_count rs)].

(** The key of the group of a book under
    [GROUP BY b.id, b.title, b.embedding], and the book of a key. *)
Definition group_key (b : book) : Z * string * option vector :=
  (b_id b, b_title b, b_embedding b).

Definition key_book (k : Z * string * option vector) : book :=
  {| b_id := fst (fst k); b_title := snd (fst k); b_embedding := snd k |}.

(** The groups of keys [ks] in the order in which the executor emits them. *)
Definition emitted_groups (ks : list book) : list book :=
  map key_book (group_order (map group_key ks)).

(** The rows of the query with an exclusion id before its LIMIT: the join,
    the WHERE clause, the groups and their aggregates, in the order in which
    the executor emits the groups. *)
Definition candidate_rows (db : database) (ref : option vector) (exclude : Z)
  : list (list pyval) :=
  let rows := filter (fun j => candidate ref exclude (fst j))
                     (left_join (books db) (ratings db)) in
  map (candidate_row ref rows) (emitted_groups (distinct same_group (map fst rows))).

(** [get_book_recommendations], [if exclude_book_id]:
    SELECT b.id, b.title, b.embedding <=> (SELECT embedding FROM books WHERE id = %s) as distance,
           AVG(r.rating) as avg_rating, COUNT(r.rating) as num_ratings
    FROM books b LEFT JOIN ratings r ON b.id = r.book_id
    WHERE b.embedding IS NOT NULL AND b.id != %s
      AND b.embedding <=> (SELECT embedding FROM books WHERE id = %s) < 2.0
    GROUP BY b.id, b.title, b.embedding
    LIMIT %s *)
Definition similar_books_query (ref exclude limit : Z) (db : database)
  : result (list (list pyval)) :=
  e <- reference_embedding db ref ;;
  sql_limit limit (candidate_rows db e exclude).

(** [get_book_recommendations], [else]:
    SELECT id, title, embedding <=> (SELECT embedding FROM books WHERE id = %s) as distance
    FROM books WHERE embedding IS NOT NULL
    ORDER BY embedding <=> (SELECT embedding FROM books WHERE id = %s)
    LIMIT %s *)
Definition nearest_books_query (ref limit : Z) (db : database)
  : result (list (list pyval)) :=
  e <- reference_embedding db ref ;;
  let rows := filter (fun b => match b_embedding b with Some _ => true | None => false end)
                     (books db) in
  let ordered := sort_by (fun x y => nulls_last_le (distance (b_embedding x) e)
                                                   (distance (b_embedding y) e)) rows in
  sql_limit limit
    (map (fun b => [PyInt (b_id b); PyStr (b_title b);
                    py_float8 (distance (b_embedding b) e)]) ordered).

(** [get_rating_analytics], first statement:
    SELECT DATE(ts) as date, AVG(rating) as avg_rating, COUNT( * ) as num_ratings
    FROM ratings WHERE ts >= NOW() - INTERVAL '30 days'
    GROUP BY DATE(ts) ORDER BY date *)
Definition rating_trend_query (db : database) : result (list (list pyval)) :=
  let rows := filter (fun r => (now db - 30 * 86400 <=? r_ts r)%Z) (ratings db) in
  let groups :=
    map (fun d =>
           let g := filter (fun r => (date (r_ts r) =? d)%Z) rows in
           (d, sql_avg (map r_rating g), sql_count g))
        (distinct Z.eqb (map (fun r => date (r_ts r)) rows)) in
  let ordered := sort_by (fun x y => (fst (fst x) <=? fst (fst y))%Z) groups in
  Ok (map (fun g => [PyDate (fst (fst g)); py_numeric (snd (fst g)); PyInt (snd g)])
          ordered).

(** A group of the leaderboard statement with its aggregates. *)
Record rated : Type := {
  g_book : book;
  g_avg : option Q;
  g_count : Z
}.

(** [ORDER BY avg_rating DESC, num_ratings DESC] *)
Definition leaderboard_order (x y : rated) : bool :=
  if numeric_le (g_avg x) (g_avg y)
  then if numeric_le (g_avg y) (g_avg x)
       then (g_count y <=? g_count x)%Z
       else false
  else true.

(** The non-null [r.rating] of the joined rows of the group of key [k]. *)
Definition joined_ratings (db : database) (k : book) : list Z :=
  map (fun j => r_rating (snd j))
      (filter (fun j => same_id_title k (fst j)) (inner_join (books db) (ratings db))).

(** The groups of the leaderboard statement: join, GROUP BY and aggregates. *)
Definition rated_groups (db : database) : list rated :=
  map (fun k => {| g_book := k;
                   g_avg := sql_avg (joined_ratings db k);
                   g_count := sql_count (joined_ratings db k) |})
      (distinct same_id_title (map fst (inner_join (books db) (ratings db)))).

(** The groups that the leaderboard keeps, in its order: HAVING, ORDER BY
    and LIMIT. *)
Definition top_rated (db : database) : list rated :=
  firstn 10 (sort_by leaderboard_order
               (filter (fun g => (3 <=? g_count g)%Z) (rated_groups db))).

(** The row selected for a group: title, average, count. *)
Definition leaderboard_row (g : rated) : list pyval :=
  [PyStr (b_title (g_book g)); py_numeric (g_avg g); PyInt (g_count g)].

(** [get_rating_analytics], second statement:
    SELECT b.title, AVG(r.rating) as avg_rating, COUNT(r.rating) as num_ratings
    FROM books b JOIN ratings r ON b.id = r.book_id
    GROUP BY b.id, b.title HAVING COUNT(r.rating) >= 3
    ORDER BY avg_rating DESC, num_ratings DESC LIMIT 10 *)
Definition top_rated_query (db : database) : result (list (list pyval)) :=
  Ok (map leaderboard_row (top_rated db)).

(** ** The functions of [app.py] *)

(** [cursor.fetchone()] *)
Definition fetchone (rows : list (list pyval)) : option (list pyval) := hd_error rows.

(** [float(x)] *)
Definition float (x : pyval) : result float8 :=
  match x with
  | PyInt z => Ok (Fin (inject_Z z))
  | PyFloat f => Ok f
  | PyDecimal q => Ok (Fin q)
  | PyStr s => float_of_str s
  | PyNone | PyList _ | PyDate _ => Raise TypeError
  end.

(** [1 - x], as a number. *)
Definition one_minus (x : pyval) : result float8 :=
  match x with
  | PyInt z => Ok (Fin (1 - inject_Z z))
  | PyFloat (Fin q) => Ok (Fin (1 - q))
  | PyFloat NaN => Ok NaN
  | PyDecimal q => Ok (Fin (1 - q))
  | PyNone | PyStr _ | PyList _ | PyDate _ => Raise TypeError
  end.

(** [max(0, x)]: [x] when [x > 0] holds, else the first argument; never NaN. *)
Definition max_0 (x : float8) : Q :=
  match x with
  | Fin q => if Qle_bool q 0 then 0 else q
  | NaN => 0
  end.

(** [def get_book_rating(conn, book_id)]: its handler returns [None, 0] and
    calls nothing. *)
Definition get_book_rating (conn : connection) (book_id : Z)
  : (option float8 * pyval) * list st_call :=
  let body :=
    rows <- execute conn (rating_summary_query book_id) ;;
    match fetchone rows with
    | Some (c :: r) =>
        a <- index (c :: r) 0 ;;
        if truthy a
        then avg_rating <- float a ;;
             num_ratings <- index (c :: r) 1 ;;
             Ok (Some avg_rating, num_ratings)
        else Ok (None, PyInt 0)
    | Some [] | None => Ok (None, PyInt 0)
    end in
  match body with
  | Ok v => (v, [])
  | Raise _ => ((None, PyInt 0), [])
  end.

(** The pieces of a text embedding that are converted:
    [embedding_str = embedding.strip('[]')] and then
    [x for x in embedding_str.split(',') if x.strip()]. *)
Definition embedding_pieces (embedding : string) : list string :=
  let embedding_str := strip_set is_bracket embedding in
  filter (fun x => truthy (PyStr (strip x))) (split_comma embedding_str).

(** The decoding of a fetched embedding in [get_book_embedding]: the three
    branches on the type of the value. *)
Definition decode_embedding (embedding : pyval) : result pyval :=
  match embedding with
  | PyStr s =>
      embedding_list <-
        traverse (fun x => float (PyStr (strip x))) (embedding_pieces s) ;;
      Ok (PyList (map PyFloat embedding_list))
  | PyList l => Ok (PyList l)
  | other => Ok other
  end.

(** [def get_book_embedding(conn, book_id)] *)
Definition get_book_embedding (conn : connection) (book_id : Z) : pyval * list st_call :=
  let body :=
    rows <- execute conn (embedding_query book_id) ;;
    match fetchone rows with
    | Some (c :: r) =>
        e <- index (c :: r) 0 ;;
        if truthy e then decode_embedding e else Ok PyNone
    | Some [] | None => Ok PyNone
    end in
  match body with
  | Ok v => (v, [])
  | Raise e => (PyNone, [st_error (ErrorGettingBookEmbedding e)])
  end.

(** One element of the list that [get_book_recommendations] returns. *)
Record recommendation : Type := {
  id : pyval;
  title : pyval;
  similarity_score : Q;
  avg_rating : option float8;
  num_ratings : pyval
}.

(** The dictionary display of the comprehension, evaluated key by key. *)
Definition build (row : list pyval) : result recommendation :=
  i <- index row 0 ;;
  t <- index row 1 ;;
  d <- index row 2 ;;
  x <- one_minus d ;;
  a <- index row 3 ;;
  avg <- (if truthy a then f <- float a ;; Ok (Some f) else Ok None) ;;
  n <- index row 4 ;;
  Ok {| id := i; title := t; similarity_score := max_0 x;
        avg_rating := avg; num_ratings := if truthy n then n else PyInt 0 |}.

(** What [build] stores under ['avg_rating'] for a nullable [numeric]:
    [float(row[3]) if row[3] else None]. *)
Definition avg_of_numeric (a : option Q) : option float8 :=
  match a with
  | Some q => if Qeq_bool q 0 then None else Some (Fin q)
  | None => None
  end.

(** [if exclude_book_id]: [None] and [0] are false. *)
Definition truthy_id (exclude_book_id : option Z) : option Z :=
  match exclude_book_id with
  | Some z => if truthy (PyInt z) then Some z else None
  | None => None
  end.

(** [recommendations.sort(key=lambda x: x['similarity_score'], reverse=True)] *)
Definition sort_by_similarity (l : list recommendation) : list recommendation :=
  sort_by (fun x y => Qle_bool (similarity_score y) (similarity_score x)) l.

(** [cursor.execute(...); results = cursor.fetchall()] in
    [get_book_recommendations] *)
Definition fetch_results (conn : connection) (reference_book_id limit : Z)
  (exclude_book_id : option Z) : result (list (list pyval)) :=
  match truthy_id exclude_book_id with
  | Some z => execute conn (similar_books_query reference_book_id z limit)
  | None => execute conn (nearest_books_query reference_book_id limit)
  end.

(** [def get_book_recommendations(conn, reference_book_id, limit=10,
    exclude_book_id=None)] *)
Definition get_book_recommendations (conn : connection) (reference_book_id limit : Z)
  (exclude_book_id : option Z) : list recommendation * list st_call :=
  let body :=
    results <- fetch_results conn reference_book_id limit exclude_book_id ;;
    recommendations <- traverse build results ;;
    Ok (sort_by_similarity recommendations) in
  match body with
  | Ok l => (l, [])
  | Raise e => ([], [st_error (ErrorGettingRecommendations e)])
  end.

(** [def get_rating_analytics(conn)] *)
Definition get_rating_analytics (conn : connection)
  : (list (list pyval) * list (list pyval)) * list st_call :=
  let body :=
    rating_trend <- execute conn rating_trend_query ;;
    top_books <- execute conn top_rated_query ;;
    Ok (rating_trend, top_books) in
  match body with
  | Ok v => (v, [])
  | Raise e => (([], []), [st_error (ErrorGettingAnalytics e)])
  end.

End Model.

(** ** Two concrete stores, on which the statements below are evaluated *)

(** A fragment of Python's [float] on strings: an optional sign, digits and
    an optional fractional part ([12], [-0.5], [.25], [3.]); everything else
    is refused with [ValueError]. Python reads more (exponents, [inf], [nan]);
    the fragment is only applied to strings on which both agree. *)
Definition digit_of (c : ascii) : option Z :=
  let n := nat_of_ascii c in
  if ((48 <=? n) && (n <=? 57))%nat%bool then Some (Z.of_nat (n - 48)) else None.

Fixpoint digits_of (s : string) : option (list Z) :=
  match s with
  | EmptyString => Some []
  | String c t =>
      match digit_of c, digits_of t with
      | Some d, Some ds => Some (d :: ds)
      | _, _ => None
      end
  end.

Definition number_of (ds : list Z) : Z := fold_left (fun a d => (10 * a + d)%Z) ds 0%Z.

Definition unsigned_decimal (s : string) : option Q :=
  match split_on "." s with
  | [i] =>
      match digits_of i with
      | Some (d :: ds) => Some (inject_Z (number_of (d :: ds)))
      | _ => None
      end
  | [i; f] =>
      match digits_of i, digits_of f with
      | Some [], Some [] => None
      | Some di, Some df =>
          Some (inject_Z (number_of di)
                + inject_Z (number_of df) / inject_Z (10 ^ Z.of_nat (length df)))
      | _, _ => None
      end
  | _ => None
  end.

Definition decimal (s : string) : result float8 :=
  let signed := match s with
                | String "-" t => (true, t)
                | String "+" t => (false, t)
                | _ => (false, s)
                end in
  match unsigned_decimal (snd signed) with
  | Some q => Ok (Fin (Qred (if fst signed then - q else q)))
  | None => Raise ValueError
  end.

Definition Q_eq_dec (x y : Q) : {x = y} + {x <> y}.
Proof. decide equality; [apply Pos.eq_dec | apply Z.eq_dec]. Defined.

Definition dot (a b : list Q) : Q :=
  fold_right Qplus 0 (map (fun p => fst p * snd p) (combine a b)).

(** The square root of a rational whose numerator and denominator are
    squares (rounded down on each otherwise). *)
Definition Qsqrt (x : Q) : Q := Z.sqrt (Qnum x) # Pos.sqrt (Qden x).

(** The cosine distance [1 - a.b / sqrt(|a|^2 |b|^2)], NaN on a zero vector;
    exact whenever the product of the squared norms is a square, as it is for
    the unit vectors of the stores below. *)
Definition exact_cosine_distance (a b : list Q) : float8 :=
  let n := dot a a * dot b b in
  if Qeq_bool n 0 then NaN else Fin (1 - dot a b / Qsqrt n).

(** A store whose vectors are lists of rationals and whose driver returns an
    embedding as a list of floats. Its executor emits the groups in the order
    in which the scan met them. *)
Definition unit_store : Store := {|
  vector := list Q;
  vector_eq_dec := list_eq_dec Q_eq_dec;
  cosine_distance := exact_cosine_distance;
  adapt_vector := fun v => PyList (map (fun q => PyFloat (Fin q)) v);
  float_of_str := decimal;
  group_order := fun ks => ks;
  group_order_perm := fun ks => Permutation_refl ks
|}.

(** Ascending order of the first grouping key, [b.id]. *)
Definition by_id (x y : Z * string * option (list Q)) : bool :=
  (fst (fst x) <=? fst (fst y))%Z.

Definition sort_by_id_perm (ks : list (Z * string * option (list Q)))
  : Permutation ks (sort_by by_id ks).
Proof.
  induction ks as [|x t IH]; simpl; [constructor|].
  apply (perm_trans (perm_skip x IH)).
  generalize (sort_by by_id t). intros l.
  induction l as [|y l IHl]; simpl; [apply Permutation_refl|].
  destruct (by_id x y); [apply Permutation_refl|].
  apply (perm_trans (perm_swap y x l)). apply perm_skip. exact IHl.
Defined.

(** The same store with an executor that groups by sorting: it emits the
    groups in ascending order of [b.id]. *)
Definition sorted_store : Store := {|
  vector := list Q;
  vector_eq_dec := list_eq_dec Q_eq_dec;
  cosine_distance := exact_cosine_distance;
  adapt_vector := fun v => PyList (map (fun q => PyFloat (Fin q)) v);
  float_of_str := decimal;
  group_order := sort_by by_id;
  group_order_perm := sort_by_id_perm
|}.





(** The scenario of the specification: [item_A] and [item_B] have the same
    unit embedding, [item_C] an orthogonal one; [item_B] has five ratings of
    average 4.2 and [item_C] none. *)
Definition item_A : @book unit_store := @Build_book unit_store 1 "A" (Some [1; 0; 0]).
Definition item_B : @book unit_store := @Build_book unit_store 2 "B" (Some [1; 0; 0]).
Definition item_C : @book unit_store := @Build_book unit_store 3 "C" (Some [0; 1; 0]).

Definition rate (book_id score ts : Z) : rating :=
  {| r_user_id := 1; r_book_id := book_id; r_rating := score; r_ts := ts |}.

Definition scenario_db : @database unit_store := {|
  books := [item_A; item_C; item_B];
  ratings := [rate 2 5 10; rate 1 3 20; rate 2 4 30; rate 2 4 40; rate 2 4 50; rate 2 4 60];
  now := 100
|}.

(** The same scenario, in the same scan order, on the store that emits its
    groups in ascending order of [b.id]. *)
Definition sorted_scenario_db : @database sorted_store := {|
  books := [@Build_book sorted_store 1 "A" (Some [1; 0; 0]);
            @Build_book sorted_store 3 "C" (Some [0; 1; 0]);
            @Build_book sorted_store 2 "B" (Some [1; 0; 0])];
  ratings := [rate 2 5 10; rate 1 3 20; rate 2 4 30; rate 2 4 40; rate 2 4 50; rate 2 4 60];
  now := 100
|}.

(** A store for the leaderboard: [X] has two ratings of 5, [Y] three of 4,
    [Z] four of 4, [W] the ratings 5, 4, 4 and [V] none. *)
Definition leaderboard_db : @database unit_store := {|
  books := [@Build_book unit_store 1 "X" None; @Build_book unit_store 2 "Y" None;
            @Build_book unit_store 3 "Z" None; @Build_book unit_store 4 "W" None;
            @Build_book unit_store 5 "V" None];
  ratings := [rate 1 5 10; rate 2 4 10; rate 3 4 10; rate 4 5 10; rate 1 5 20;
              rate 2 4 20; rate 3 4 20; rate 4 4 20; rate 2 4 30; rate 3 4 30;
              rate 4 4 30; rate 3 4 40];
  now := 100
|}.

(** ** The rest of [app.py] and the encoder of the seeding script *)

(** The [st.error] call of [get_all_books]. *)
Inductive books_call : Type :=
| st_error_getting_books (e : exn).

(** One element of the list that [get_all_books] returns: the dictionary
    with the keys ['id'] and ['title']. *)
Record book_entry : Type := {
  entry_id : pyval;
  entry_title : pyval
}.

Section Listing.
Context `{Store}.

(** The collation of the store, which decides [ORDER BY title]:
    [collate a b] holds when [a] sorts no later than [b]. It is a setting of
    the database, not code of this repository. *)
Variable collate : string -> string -> bool.

(** [get_all_books]: SELECT id, title FROM books ORDER BY title *)
Definition all_books_query (db : database) : result (list (list pyval)) :=
  Ok (map (fun b => [PyInt (b_id b); PyStr (b_title b)])
          (sort_by (fun x y => collate (b_title x) (b_title y)) (books db))).

(** [def get_all_books(conn)] *)
Definition get_all_books (conn : connection) : list book_entry * list books_call :=
  let body :=
    results <- execute conn all_books_query ;;
    traverse (fun row =>
                i <- index row 0 ;;
                t <- index row 1 ;;
                Ok {| entry_id := i; entry_title := t |}) results in
  match body with
  | Ok l => (l, [])
  | Raise e => ([], [st_error_getting_books e])
  end.

End Listing.

(** [str(n)] for an [int]. *)
Definition str_of_int (n : Z) : string :=
  DecimalString.NilZero.string_of_int (Z.to_int n).

(** The key of [book_options] in [main]:
    [f"{book['title']} (ID: {book['id']})"]. *)
Definition option_label (title : string) (book_id : Z) : string :=
  title ++ " (ID: " ++ str_of_int book_id ++ ")".

(** [s.split(sep)[0]] for a non-empty [sep]: what precedes the first
    occurrence of [sep] in [s], all of [s] when there is none. *)
Fixpoint before_first (sep s : string) : string :=
  match s with
  | EmptyString => EmptyString
  | String c t => if prefix sep s then EmptyString else String c (before_first sep t)
  end.

(** [selected_book_title = selected_book_display.split(" (ID:")[0]] *)
Definition selected_book_title (selected_book_display : string) : string :=
  before_first " (ID:" selected_book_display.

(** [sep in s] for a non-empty [sep]. *)
Fixpoint occurs (sep s : string) : bool :=
  match s with
  | EmptyString => false
  | String c t => (prefix sep s || occurs sep t)%bool
  end.

(** The lambda applied to the titles of the leaderboard in [main]:
    [x[:40] + "..." if len(x) > 40 else x]. A string is taken as the sequence
    of its characters. *)
Definition title_short (x : string) : string :=
  if (40 <? String.length x)%nat then substring 0 40 x ++ "..." else x.






(** The record of the item [k] as [get_book_recommendations] and
    [get_book_rating] describe it together: the similarity computed from the
    distance of [k] to the reference embedding [e], the average that
    [get_book_rating] returns for [k], and the number of its ratings. *)
Definition expected_record `{Store} (db : database) (e : option vector) (k : book)
  : recommendation :=
  {| id := PyInt (b_id k);
     title := PyStr (b_title k);
     similarity_score := match distance (b_embedding k) e with
                         | Some (Fin q) => max_0 (Fin (1 - q))
                         | _ => 0
                         end;
     avg_rating := fst (fst (get_book_rating (Connected db) (b_id k)));
     num_ratings := PyInt (sql_count (ratings_of db (b_id k))) |}.

(** [ratings WHERE ts >= NOW() - INTERVAL '30 days'], the rows that the
    statement of the rating trend groups. *)
Definition window_ratings `{Store} (db : database) : list rating :=
  filter (fun r => (now db - 30 * 86400 <=? r_ts r)%Z) (ratings db).

(** The groups of the statement of the rating trend with their aggregates
    (day, average, count), in the order of ORDER BY date. *)
Definition trend_groups `{Store} (db : database) : list (Z * option Q * Z) :=
  sort_by (fun x y => (fst (fst x) <=? fst (fst y))%Z)
    (map (fun d =>
            let g := filter (fun r => (date (r_ts r) =? d)%Z) (window_ratings db) in
            (d, sql_avg (map r_rating g), sql_count g))
         (distinct Z.eqb (map (fun r => date (r_ts r)) (window_ratings db)))).

(** The [num_ratings] column (index 2) of a row of the rating trend. *)
Definition trend_count (row : list pyval) : Z :=
  match nth_error row 2 with
  | Some (PyInt n) => n
  | _ => 0%Z
  end.

(** ** The workload runner of [demo/query_runner.py] *)

(** What one call of [run_slow_query] meets: no query could be loaded (the
    file is missing or holds no statement), the execution raised, or it
    returned [rows] rows after [elapsed] milliseconds. *)
Inductive query_run : Type :=
| NoQuery
| QueryFailed
| QueryRan (elapsed : Q) (rows : nat).

(** [def run_slow_query(self, query_name)]: the execution time and the number
    of rows; [0, 0] when there is no query and in its handler. *)
Definition run_slow_query (r : query_run) : Q * nat :=
  match r with
  | QueryRan elapsed rows => (elapsed, rows)
  | NoQuery | QueryFailed => (0, 0%nat)
  end.

(** The counters of [run_workload]. *)
Record workload : Type := {
  total_execution_time : Q;
  successful_queries : Z;
  failed_queries : Z
}.

(** One turn of the loop of [run_workload]: the [try] block adds the time and
    counts a success, and ends with [time.sleep(delay_between_queries)],
    which raises for a negative delay; the handler counts a failure. *)
Definition iteration (delay_between_queries : Q) (w : workload) (r : query_run) : workload :=
  let execution_time := fst (run_slow_query r) in
  {| total_execution_time := total_execution_time w + execution_time;
     successful_queries := successful_queries w + 1;
     failed_queries := if Qle_bool 0 delay_between_queries
                       then failed_queries w
                       else (failed_queries w + 1)%Z |}.

(** What [run_workload] does: it returns its dictionary, or the summary it
    logs before raises [ZeroDivisionError]. *)
Inductive workload_outcome : Type :=
| Summary (successful failed : Z) (total_time avg_time : Q)
| ZeroDivision.

(** [def run_workload(self, num_iterations, delay_between_queries)], one
    element of [runs] for each of the [num_iterations] turns. The summary
    divides [total_execution_time] by [successful_queries]. *)
Definition run_workload (runs : list query_run) (delay_between_queries : Q)
  : workload_outcome :=
  let w := fold_left (iteration delay_between_queries) runs
             {| total_execution_time := 0; successful_queries := 0;
                failed_queries := 0 |} in
  if (successful_queries w =? 0)%Z
  then ZeroDivision
  else Summary (successful_queries w) (failed_queries w) (total_execution_time w)
         (total_execution_time w / inject_Z (successful_queries w)).




(** A store in which two books share a similarity score: [item_A] is the
    reference, the books 2 and 3 are orthogonal to it, the book 4 has its
    embedding. *)
Definition tie_db : @database unit_store := {|
  books := [item_A; @Build_book unit_store 2 "B" (Some [0; 1; 0]);
            @Build_book unit_store 4 "D" (Some [1; 0; 0]);
            @Build_book unit_store 3 "C" (Some [0; 0; 1])];
  ratings := [];
  now := 0
|}.

(** A store with books out of title order and ratings on three days, two of
    them inside the window of 30 days before [now]. *)
Definition shelf_db : @database unit_store := {|
  books := [@Build_book unit_store 1 "Dune" None; @Build_book unit_store 2 "Circe" None;
            @Build_book unit_store 3 "Emma" (Some [1; 0])];
  ratings := [rate 1 4 (40 * 86400 + 5); rate 2 5 (39 * 86400); rate 1 2 (40 * 86400 + 9);
              rate 3 3 (5 * 86400)];
  now := 60 * 86400
|}.

(** * Properties *)

Unset Implicit Arguments.

(** ** Sorting *)

Section SortFacts.
Context {A : Type}.
Variable before : A -> A -> bool.

Lemma insert_by_perm x l : Permutation (x :: l) (insert_by before x l).
Proof.
  induction l as [|y t IH]; simpl; [reflexivity|].
  destruct (before x y); [reflexivity|].
  etransitivity; [apply perm_swap|]. now apply perm_skip.
Qed.

Lemma sort_by_perm l : Permutation l (sort_by before l).
Proof.
  induction l as [|x t IH]; simpl; [constructor|].
  etransitivity; [apply perm_skip, IH|]. apply insert_by_perm.
Qed.

Lemma sort_by_length l : length (sort_by before l) = length l.
Proof. symmetry. apply Permutation_length, sort_by_perm. Qed.

Lemma sort_by_in x l : In x (sort_by before l) <-> In x l.
Proof.
  split; apply Permutation_in; [symmetry|]; apply sort_by_perm.
Qed.

Hypothesis before_total : forall x y, before x y = false -> before y x = true.

Lemma insert_by_sorted x l :
  LocallySorted (fun a b => before a b = true) l ->
  LocallySorted (fun a b => before a b = true) (insert_by before x l).
Proof.
  induction 1 as [|y|y z t Hs IH Hyz]; simpl.
  - constructor.
  - destruct (before x y) eqn:E; repeat constructor; auto.
  - destruct (before x y) eqn:E.
    + repeat constructor; auto.
    + simpl in IH. destruct (before x z) eqn:E'.
      * repeat constructor; auto.
      * constructor; auto.
Qed.

Lemma sort_by_sorted l :
  LocallySorted (fun a b => before a b = true) (sort_by before l).
Proof.
  induction l as [|x t IH]; simpl; [constructor|].
  now apply insert_by_sorted.
Qed.

End SortFacts.

(** Adjacent elements of a locally sorted list are related. *)
Lemma locally_sorted_adjacent {A : Type} (R : A -> A -> Prop) l i a b :
  LocallySorted R l ->
  nth_error l i = Some a -> nth_error l (S i) = Some b -> R a b.
Proof.
  intros Hs. revert i. induction Hs as [|y|y z t Hs IH Hyz]; intros i Ha Hb.
  - destruct i; discriminate.
  - destruct i as [|[|i]]; discriminate.
  - destruct i as [|i]; simpl in *.
    + congruence.
    + eapply IH; eauto.
Qed.

(** ** Lists, LIMIT and comprehensions *)

Lemma nth_error_firstn_some {A : Type} (l : list A) n i a :
  nth_error (firstn n l) i = Some a -> nth_error l i = Some a.
Proof.
  revert n i. induction l as [|x t IH]; intros [|n] [|i]; simpl; try discriminate; auto.
  apply IH.
Qed.

Lemma in_firstn {A : Type} (l : list A) n a : In a (firstn n l) -> In a l.
Proof.
  revert n. induction l as [|x t IH]; intros [|n]; simpl; try tauto.
  intros [E|I]; [now left | right; eauto].
Qed.

Lemma sql_limit_in_range {A : Type} (n : Z) (l : list A) :
  (0 <= n < 2 ^ 63)%Z -> sql_limit n l = Ok (firstn (Z.to_nat n) l).
Proof.
  intros Hn. unfold sql_limit.
  destruct (Z.ltb_spec n 0); [lia|]. destruct (Z.leb_spec (2 ^ 63) n); [lia|].
  reflexivity.
Qed.

Lemma sql_limit_out_of_range {A : Type} (n : Z) (l : list A) :
  (n < 0 \/ 2 ^ 63 <= n)%Z -> sql_limit n l = Raise DatabaseError.
Proof.
  intros Hn. unfold sql_limit.
  destruct (Z.ltb_spec n 0); [reflexivity|].
  destruct (Z.leb_spec (2 ^ 63) n); [reflexivity | lia].
Qed.

Lemma sql_limit_ok {A : Type} (n : Z) (l rows : list A) :
  sql_limit n l = Ok rows -> rows = firstn (Z.to_nat n) l /\ (0 <= n < 2 ^ 63)%Z.
Proof.
  destruct (Z.ltb_spec n 0) as [Hn|Hn].
  - rewrite sql_limit_out_of_range by lia. discriminate.
  - destruct (Z.leb_spec (2 ^ 63) n) as [Hb|Hb].
    + rewrite sql_limit_out_of_range by lia. discriminate.
    + rewrite sql_limit_in_range by lia. intros [= <-]. split; [reflexivity | lia].
Qed.

Lemma traverse_length {A B : Type} (f : A -> result B) l ys :
  traverse f l = Ok ys -> length ys = length l.
Proof.
  revert ys. induction l as [|x t IH]; simpl; intros ys.
  - now intros [= <-].
  - destruct (f x); simpl; [|discriminate].
    destruct (traverse f t); simpl; [|discriminate].
    intros [= <-]. simpl. f_equal. now apply IH.
Qed.

Lemma traverse_in {A B : Type} (f : A -> result B) l ys x :
  traverse f l = Ok ys -> In x l -> exists y, f x = Ok y /\ In y ys.
Proof.
  revert ys. induction l as [|a t IH]; simpl; intros ys E; [tauto|].
  destruct (f a) as [b|] eqn:Ea; simpl in E; [|discriminate].
  destruct (traverse f t) as [bs|]; simpl in E; [|discriminate].
  injection E as <-. intros [<-|I].
  - exists b. split; [assumption | now left].
  - destruct (IH bs eq_refl I) as (y & Ey & Iy). exists y. split; [assumption | now right].
Qed.

Lemma traverse_in_inv {A B : Type} (f : A -> result B) l ys y :
  traverse f l = Ok ys -> In y ys -> exists x, In x l /\ f x = Ok y.
Proof.
  revert ys. induction l as [|a t IH]; simpl; intros ys E.
  - injection E as <-. intros [].
  - destruct (f a) as [b|] eqn:Ea; simpl in E; [|discriminate].
    destruct (traverse f t) as [bs|]; simpl in E; [|discriminate].
    injection E as <-. intros [<-|I].
    + exists a. split; [now left | assumption].
    + destruct (IH bs eq_refl I) as (x & Ix & Ex). exists x. split; [now right | assumption].
Qed.

Lemma traverse_total {A B : Type} (f : A -> result B) l :
  (forall x, In x l -> exists y, f x = Ok y) -> exists ys, traverse f l = Ok ys.
Proof.
  induction l as [|a t IH]; simpl; intros Hl.
  - now exists [].
  - destruct (Hl a (or_introl eq_refl)) as (b & ->).
    destruct IH as (bs & ->); [intros; apply Hl; now right|].
    simpl. now eexists.
Qed.

(** ** GROUP BY *)

Lemma distinct_in {A : Type} (eqb : A -> A -> bool) l x :
  In x (distinct eqb l) -> In x l.
Proof.
  induction l as [|a t IH]; simpl; [tauto|].
  intros [E|I]; [now left|]. apply filter_In in I as [I _]. right; auto.
Qed.

Lemma distinct_complete {A : Type} (eqb : A -> A -> bool) l x :
  (forall a b, eqb a b = true -> a = b) -> In x l -> In x (distinct eqb l).
Proof.
  intros Heq. induction l as [|a t IH]; simpl; [tauto|].
  intros [E|I]; [now left|].
  destruct (eqb a x) eqn:E; [left; now apply Heq|].
  right. apply filter_In. split; [auto | now rewrite E].
Qed.

Lemma filter_idempotent {A : Type} (p : A -> bool) l :
  filter p (filter p l) = filter p l.
Proof.
  induction l as [|a t IH]; simpl; [reflexivity|].
  destruct (p a) eqn:E; simpl; [rewrite E; f_equal|]; assumption.
Qed.

(** A run of joined rows of one book opens one group. *)
Lemma distinct_run {A : Type} (eqb : A -> A -> bool) (b : A) (run rest : list A) :
  eqb b b = true -> run <> [] -> (forall x, In x run -> x = b) ->
  distinct eqb (run ++ rest) = b :: filter (fun y => negb (eqb b y)) (distinct eqb rest).
Proof.
  intros Hb. induction run as [|x run IH]; intros Hne Hall; [congruence|].
  assert (x = b) as -> by (apply Hall; now left).
  destruct run as [|y run'].
  - reflexivity.
  - change ((b :: y :: run') ++ rest) with (b :: ((y :: run') ++ rest)).
    cbn [distinct]. rewrite IH; [|discriminate | intros; apply Hall; now right].
    cbn [filter]. rewrite Hb. cbn [negb]. now rewrite filter_idempotent.
Qed.

(** ** The joins and groups of the statements *)

Section Facts.
Context `{Store}.

Lemma same_embedding_eq (x y : option vector) : same_embedding x y = true <-> x = y.
Proof.
  destruct x as [a|], y as [b|]; simpl; try (split; [discriminate | congruence]).
  - destruct (vector_eq_dec a b); split; congruence.
  - tauto.
Qed.

Lemma same_group_eq (x y : book) : same_group x y = true <-> x = y.
Proof.
  unfold same_group. rewrite !andb_true_iff, Z.eqb_eq, String.eqb_eq, same_embedding_eq.
  destruct x, y; simpl. split; [intros [[-> ->] ->]; reflexivity | intros [= -> -> ->]; auto].
Qed.

Lemma same_group_refl (x : book) : same_group x x = true.
Proof. now apply same_group_eq. Qed.

Lemma same_id_title_refl (x : book) : same_id_title x x = true.
Proof. unfold same_id_title. now rewrite Z.eqb_refl, String.eqb_refl. Qed.

(** The joined rows of one book. *)
Lemma left_join_cons (b : book) bs rs :
  left_join (b :: bs) rs = left_join [b] rs ++ left_join bs rs.
Proof. unfold left_join. simpl. now rewrite app_nil_r. Qed.

Lemma left_join_one_fst (b : book) rs j : In j (left_join [b] rs) -> fst j = b.
Proof.
  unfold left_join. simpl. rewrite app_nil_r.
  destruct (filter _ rs) as [|r ms].
  - intros [<-|[]]. reflexivity.
  - intros I. change (In j (map (fun x => (b, Some x)) (r :: ms))) in I.
    apply in_map_iff in I as (x & <- & _). reflexivity.
Qed.

Lemma left_join_one_nonempty (b : book) rs : left_join [b] rs <> [].
Proof.
  unfold left_join. simpl. destruct (filter _ rs); discriminate.
Qed.

Lemma filter_left_join (p : book -> bool) bs rs :
  filter (fun j => p (fst j)) (left_join bs rs) = left_join (filter p bs) rs.
Proof.
  induction bs as [|b bs IH]; [reflexivity|].
  rewrite left_join_cons, filter_app, IH. cbn [filter].
  assert (E : filter (fun j => p (fst j)) (left_join [b] rs)
              = if p b then left_join [b] rs else []).
  { pose proof (left_join_one_fst b rs) as Hf.
    induction (left_join [b] rs) as [|j l IHl]; [now destruct (p b)|].
    cbn [filter]. rewrite (Hf j (or_introl eq_refl)).
    rewrite IHl by (intros; apply Hf; now right).
    now destruct (p b). }
  rewrite E. destruct (p b); [now rewrite <- left_join_cons | reflexivity].
Qed.

Lemma distinct_left_join bs rs :
  distinct same_group (map fst (left_join bs rs)) = distinct same_group bs.
Proof.
  induction bs as [|b bs IH]; [reflexivity|].
  rewrite left_join_cons, map_app.
  rewrite (distinct_run same_group b).
  - now rewrite IH.
  - apply same_group_refl.
  - intros E. apply map_eq_nil in E. now apply left_join_one_nonempty in E.
  - intros x I. apply in_map_iff in I as (j & <- & I). now apply left_join_one_fst in I.
Qed.

Lemma group_ratings_app g1 g2 :
  group_ratings (g1 ++ g2) = group_ratings g1 ++ group_ratings g2.
Proof. unfold group_ratings. apply flat_map_app. Qed.

Lemma group_ratings_one (b : book) rs :
  group_ratings (left_join [b] rs)
  = map r_rating (filter (fun r => (r_book_id r =? b_id b)%Z) rs).
Proof.
  unfold left_join. simpl. rewrite app_nil_r.
  destruct (filter _ rs) as [|r ms]; [reflexivity|].
  change (group_ratings (map (fun x => (b, Some x)) (r :: ms)) = map r_rating (r :: ms)).
  generalize (r :: ms). intros l. induction l as [|x l IH]; simpl; [reflexivity|].
  now f_equal.
Qed.

Lemma group_ratings_left_join bs rs :
  group_ratings (left_join bs rs)
  = flat_map (fun b => map r_rating (filter (fun r => (r_book_id r =? b_id b)%Z) rs)) bs.
Proof.
  induction bs as [|b bs IH]; [reflexivity|].
  rewrite left_join_cons, group_ratings_app, group_ratings_one, IH. reflexivity.
Qed.

(** The ratings that the statement with an exclusion id aggregates for the
    group of [k]: those of every candidate row of the table equal to [k]. *)
Lemma candidate_group_ratings (db : database) ref exclude (k : book) :
  group_ratings
    (filter (fun j => same_group k (fst j))
       (filter (fun j => candidate ref exclude (fst j))
          (left_join (books db) (ratings db))))
  = flat_map (fun b => ratings_of db (b_id b))
      (filter (same_group k) (filter (candidate ref exclude) (books db))).
Proof.
  now rewrite !filter_left_join, group_ratings_left_join.
Qed.

Lemma candidate_keys (db : database) ref exclude :
  distinct same_group
    (map fst (filter (fun j => candidate ref exclude (fst j))
                (left_join (books db) (ratings db))))
  = distinct same_group (filter (candidate ref exclude) (books db)).
Proof.
  now rewrite filter_left_join, distinct_left_join.
Qed.

Lemma key_book_group_key (b : book) : key_book (group_key b) = b.
Proof. now destruct b. Qed.

(** The executor emits every group once: the emitted groups are a
    permutation of the groups. *)
Lemma emitted_groups_perm (ks : list book) : Permutation ks (emitted_groups ks).
Proof.
  unfold emitted_groups.
  transitivity (map key_book (map group_key ks)).
  - rewrite map_map, (map_ext _ (fun b => b)) by apply key_book_group_key.
    now rewrite map_id.
  - apply Permutation_map, group_order_perm.
Qed.

Lemma emitted_groups_in (ks : list book) k : In k (emitted_groups ks) <-> In k ks.
Proof.
  split; apply Permutation_in; [symmetry|]; apply emitted_groups_perm.
Qed.

Lemma emitted_groups_length (ks : list book) : length (emitted_groups ks) = length ks.
Proof. symmetry. apply Permutation_length, emitted_groups_perm. Qed.

(** A group of the statement with an exclusion id is a candidate book of the
    table, and every candidate book has its group. *)
Lemma candidate_rows_in (db : database) ref exclude row :
  In row (candidate_rows db ref exclude) <->
  exists k, In k (books db) /\ candidate ref exclude k = true
    /\ row = candidate_row ref
               (filter (fun j => candidate ref exclude (fst j))
                  (left_join (books db) (ratings db))) k.
Proof.
  unfold candidate_rows. cbv zeta. rewrite in_map_iff, candidate_keys. split.
  - intros (k & <- & I). apply (proj1 (emitted_groups_in _ _)) in I.
    apply distinct_in, filter_In in I as [I C].
    now exists k.
  - intros (k & I & C & ->). exists k. split; [reflexivity|].
    apply emitted_groups_in.
    apply distinct_complete; [intros a b; apply same_group_eq|].
    apply filter_In. now split.
Qed.

(** ** From the fetched rows to the recommendations *)

Lemma candidate_true ref exclude (k : book) :
  candidate ref exclude k = true ->
  exists q, distance (b_embedding k) ref = Some (Fin q) /\ q < 2 /\ b_id k <> exclude.
Proof.
  unfold candidate. rewrite !andb_true_iff, negb_true_iff, Z.eqb_neq.
  intros [[_ Hid] Hd].
  destruct (distance (b_embedding k) ref) as [[q|]|]; simpl in Hd; try discriminate.
  exists q. repeat split; [|assumption].
  apply negb_true_iff in Hd. apply Qnot_le_lt. intros Hle.
  apply Qle_bool_iff in Hle. congruence.
Qed.

Lemma build_row i t q a n :
  build [PyInt i; PyStr t; PyFloat (Fin q); py_numeric a; PyInt n]
  = Ok {| id := PyInt i; title := PyStr t; similarity_score := max_0 (Fin (1 - q));
          avg_rating := avg_of_numeric a; num_ratings := PyInt n |}.
Proof.
  unfold build. cbn [index nth_error bind one_minus].
  assert (En : (if truthy (PyInt n) then PyInt n else PyInt 0) = PyInt n).
  { simpl. destruct (Z.eqb_spec n 0); simpl; congruence. }
  rewrite En. destruct a as [x|]; simpl; [|reflexivity].
  destruct (Qeq_bool x 0); reflexivity.
Qed.

(** Every row of the statement with an exclusion id has the five columns
    that [build] reads, a finite distance below 2 and an id other than the
    excluded one. *)
Lemma candidate_rows_shape (db : database) ref exclude row :
  In row (candidate_rows db ref exclude) ->
  exists k q a n, In k (books db) /\ b_id k <> exclude /\ q < 2
    /\ row = [PyInt (b_id k); PyStr (b_title k); PyFloat (Fin q); py_numeric a; PyInt n].
Proof.
  intros I. apply candidate_rows_in in I as (k & Ik & C & ->).
  destruct (candidate_true _ _ _ C) as (q & Ed & Hq & Hid).
  unfold candidate_row. rewrite Ed. simpl. eauto 10.
Qed.

Lemma truthy_id_some ex z : truthy_id ex = Some z <-> ex = Some z /\ z <> 0%Z.
Proof.
  unfold truthy_id. destruct ex as [y|]; simpl; [|split; [discriminate | intros [? _]; discriminate]].
  destruct (Z.eqb_spec y 0); simpl; split.
  - discriminate.
  - intros [[= ->] Hz]. contradiction.
  - intros [= ->]. auto.
  - intros [[= ->] _]. reflexivity.
Qed.

Lemma truthy_id_none ex : truthy_id ex = None <-> ex = None \/ ex = Some 0%Z.
Proof.
  unfold truthy_id. destruct ex as [y|]; simpl; [|tauto].
  destruct (Z.eqb_spec y 0); simpl; split; subst; auto; try discriminate.
  intros [|[= ->]]; [discriminate | contradiction].
Qed.

(** What was fetched when the exclusion id is true. *)
Lemma fetch_results_excluding conn ref limit ex z results :
  truthy_id ex = Some z ->
  fetch_results conn ref limit ex = Ok results ->
  exists db e, conn = Connected db /\ reference_embedding db ref = Ok e
    /\ (0 <= limit < 2 ^ 63)%Z
    /\ results = firstn (Z.to_nat limit) (candidate_rows db e z).
Proof.
  unfold fetch_results. intros ->. destruct conn as [db|]; simpl; [|discriminate].
  unfold similar_books_query.
  destruct (reference_embedding db ref) as [e|] eqn:Er; simpl; [|discriminate].
  intros E. apply sql_limit_ok in E as [-> Hl]. exists db, e. auto.
Qed.

(** What is fetched on a live connection when the exclusion id is true, the
    reference is resolved and the limit is one that the store accepts. *)
Lemma fetch_results_connected (db : database) ref limit ex z e :
  truthy_id ex = Some z -> reference_embedding db ref = Ok e ->
  (0 <= limit < 2 ^ 63)%Z ->
  fetch_results (Connected db) ref limit ex
  = Ok (firstn (Z.to_nat limit) (candidate_rows db e z)).
Proof.
  intros Ez Er Hl. unfold fetch_results. rewrite Ez. cbn [execute].
  unfold similar_books_query. rewrite Er. cbn [bind].
  now apply sql_limit_in_range.
Qed.

(** A limit that the store refuses fails both statements. *)
Lemma fetch_results_refused conn ref limit ex :
  (limit < 0 \/ 2 ^ 63 <= limit)%Z ->
  fetch_results conn ref limit ex = Raise DatabaseError.
Proof.
  intros Hl. unfold fetch_results.
  destruct (truthy_id ex), conn as [db|]; cbn [execute]; try reflexivity;
    unfold similar_books_query, nearest_books_query, reference_embedding;
    destruct (filter _ (books db)) as [|b [|b' l]]; cbn [bind]; cbv zeta;
    try reflexivity; now apply sql_limit_out_of_range.
Qed.

(** The rows of the statement without exclusion have three columns. *)
Lemma fetch_results_without_exclusion conn ref limit ex results row :
  truthy_id ex = None ->
  fetch_results conn ref limit ex = Ok results -> In row results ->
  exists i t d, row = [PyInt i; PyStr t; py_float8 d].
Proof.
  unfold fetch_results. intros ->. destruct conn as [db|]; simpl; [|discriminate].
  unfold nearest_books_query. destruct (reference_embedding db ref) as [e|]; simpl; [|discriminate].
  intros E I. apply sql_limit_ok in E as [-> _].
  apply in_firstn, in_map_iff in I as (b & <- & _). eauto.
Qed.

(** The comprehension succeeds on the rows of the statement with an exclusion
    id, whatever the LIMIT. *)
Lemma build_candidate_rows (db : database) ref exclude n :
  exists recs, traverse build (firstn n (candidate_rows db ref exclude)) = Ok recs.
Proof.
  apply traverse_total. intros row I. apply in_firstn, candidate_rows_shape in I
    as (k & q & a & m & _ & _ & _ & ->).
  rewrite build_row. eauto.
Qed.

(** The function returns either the empty list or a list it has sorted. *)
Lemma recommendations_sorted_or_empty conn ref limit ex :
  fst (get_book_recommendations conn ref limit ex) = []
  \/ exists results recs,
       fetch_results conn ref limit ex = Ok results
       /\ traverse build results = Ok recs
       /\ get_book_recommendations conn ref limit ex = (sort_by_similarity recs, []).
Proof.
  unfold get_book_recommendations.
  destruct (fetch_results conn ref limit ex) as [results|] eqn:Ef; simpl; [|now left].
  destruct (traverse build results) as [recs|] eqn:Et; simpl; [|now left].
  right. exists results, recs. auto.
Qed.

Lemma similarity_order_total (x y : recommendation) :
  Qle_bool (similarity_score y) (similarity_score x) = false ->
  Qle_bool (similarity_score x) (similarity_score y) = true.
Proof.
  intros E. apply Qle_bool_iff.
  destruct (Qlt_le_dec (similarity_score y) (similarity_score x)) as [Hlt|Hle].
  - apply Qlt_le_weak in Hlt. apply Qle_bool_iff in Hlt. congruence.
  - assumption.
Qed.

Lemma max_0_spec x :
  max_0 (Fin x) == Qmax 0 x.
Proof.
  unfold max_0. destruct (Qle_bool x 0) eqn:E.
  - apply Qle_bool_iff in E. symmetry. now apply Q.max_l.
  - symmetry. apply Q.max_r. destruct (Qlt_le_dec 0 x) as [Hlt|Hle].
    + now apply Qlt_le_weak.
    + apply Qle_bool_iff in Hle. congruence.
Qed.

Lemma build_five i t d a n r :
  build [i; t; PyFloat (Fin d); a; n] = Ok r ->
  id r = i /\ title r = t /\ similarity_score r = max_0 (Fin (1 - d)).
Proof.
  unfold build. cbn [index nth_error bind one_minus].
  destruct (truthy a); [destruct (float a); cbn [bind]|]; intros [= <-]; auto.
Qed.

(** On a row of three columns the dictionary display raises: [TypeError] at
    [1 - row[2]] when the distance is NULL, [IndexError] at [row[3]]
    otherwise. *)
Lemma build_three i t d :
  build [PyInt i; PyStr t; py_float8 d]
  = Raise (match d with None => TypeError | Some _ => IndexError end).
Proof.
  unfold build. cbn [index nth_error bind].
  destruct d as [[q|]|]; reflexivity.
Qed.

Lemma recommendations_excluding conn ref limit ex z results :
  truthy_id ex = Some z ->
  fetch_results conn ref limit ex = Ok results ->
  exists db e recs,
    conn = Connected db /\ reference_embedding db ref = Ok e /\ (0 <= limit < 2 ^ 63)%Z
    /\ results = firstn (Z.to_nat limit) (candidate_rows db e z)
    /\ traverse build results = Ok recs
    /\ get_book_recommendations conn ref limit ex = (sort_by_similarity recs, []).
Proof.
  intros Ez Ef.
  destruct (fetch_results_excluding _ _ _ _ _ _ Ez Ef) as (db & e & -> & Er & Hl & ->).
  destruct (build_candidate_rows db e z (Z.to_nat limit)) as (recs & Et).
  exists db, e, recs.
  split; [reflexivity|]. split; [assumption|]. split; [assumption|].
  split; [reflexivity|]. split; [assumption|].
  unfold get_book_recommendations. rewrite Ef. cbn [bind]. now rewrite Et.
Qed.

(** C1: for every fetched row with a distance d in [0,2], the list returned
    by [get_book_recommendations] holds a record with the row's id and title
    whose similarity score is max(0, 1 - d); the score lies in [0,1], is 1
    when d = 0 and is 0 when d >= 1. *)
Theorem similarity_of_fetched_row conn ref limit ex results row i t d a n :
  fetch_results conn ref limit ex = Ok results ->
  In row results ->
  row = [i; t; PyFloat (Fin d); a; n] ->
  0 <= d <= 2 ->
  exists r, In r (fst (get_book_recommendations conn ref limit ex))
    /\ id r = i /\ title r = t
    /\ similarity_score r == Qmax 0 (1 - d)
    /\ 0 <= similarity_score r <= 1
    /\ (d == 0 -> similarity_score r == 1)
    /\ (1 <= d -> similarity_score r == 0).
Proof.
  intros Ef I -> [Hd0 Hd2].
  destruct (truthy_id ex) as [z|] eqn:Ez.
  - destruct (recommendations_excluding _ _ _ _ _ _ Ez Ef)
      as (db & e & recs & _ & _ & _ & _ & Et & ->).
    destruct (traverse_in _ _ _ _ Et I) as (r & Eb & Ir).
    apply build_five in Eb as (Ei & Etl & Es).
    exists r. cbn [fst]. split; [now apply sort_by_in|].
    split; [assumption|]. split; [assumption|].
    rewrite Es. split; [apply max_0_spec|].
    unfold max_0. destruct (Qle_bool (1 - d) 0) eqn:E.
    + apply Qle_bool_iff in E. repeat split; intros; lra.
    + assert (0 < 1 - d).
      { apply Qnot_le_lt. intros Hle. apply Qle_bool_iff in Hle. congruence. }
      repeat split; intros; lra.
  - destruct (fetch_results_without_exclusion _ _ _ _ _ _ Ez Ef I) as (i' & t' & d' & [=]).
Qed.

(** C2: in the list returned by [get_book_recommendations], every element has
    a similarity score at least that of the element after it. *)
Theorem recommendations_sorted_descending conn ref limit ex i r1 r2 :
  nth_error (fst (get_book_recommendations conn ref limit ex)) i = Some r1 ->
  nth_error (fst (get_book_recommendations conn ref limit ex)) (S i) = Some r2 ->
  similarity_score r2 <= similarity_score r1.
Proof.
  destruct (recommendations_sorted_or_empty conn ref limit ex)
    as [-> | (results & recs & _ & _ & ->)]; [destruct i; discriminate|].
  cbn [fst]. intros E1 E2. apply Qle_bool_iff.
  apply (locally_sorted_adjacent
           (fun x y => Qle_bool (similarity_score y) (similarity_score x) = true)
           (sort_by_similarity recs) i); auto.
  apply sort_by_sorted. intros x y. apply similarity_order_total.
Qed.

(** C3: whatever the exclusion id, no element of the list returned by
    [get_book_recommendations] carries it as its id. *)
Theorem exclusion_id_never_recommended conn ref limit exclude r :
  In r (fst (get_book_recommendations conn ref limit (Some exclude))) ->
  id r <> PyInt exclude.
Proof.
  destruct (recommendations_sorted_or_empty conn ref limit (Some exclude))
    as [-> | (results & recs & Ef & Et & ->)]; [intros []|].
  cbn [fst]. intros I. apply sort_by_in in I.
  destruct (traverse_in_inv _ _ _ _ Et I) as (row & Irow & Eb).
  destruct (truthy_id (Some exclude)) as [z|] eqn:Ez.
  - apply truthy_id_some in Ez as [[= <-] _].
    assert (Ez : truthy_id (Some exclude) = Some exclude).
    { apply truthy_id_some. split; [reflexivity|].
      intros ->. unfold fetch_results in Ef. simpl in Ef.
      destruct (fetch_results_without_exclusion conn ref limit (Some 0%Z) _ _ eq_refl Ef Irow)
        as (i & t & d & ->).
      rewrite build_three in Eb. discriminate. }
    destruct (fetch_results_excluding _ _ _ _ _ _ Ez Ef) as (db & e & _ & _ & _ & ->).
    apply in_firstn, candidate_rows_shape in Irow as (k & q & a & n & _ & Hid & _ & ->).
    rewrite build_row in Eb. injection Eb as <-. cbn [id]. congruence.
  - destruct (fetch_results_without_exclusion _ _ _ _ _ _ Ez Ef Irow) as (i & t & d & ->).
    rewrite build_three in Eb. discriminate.
Qed.

(** Without a true exclusion id nothing can be built: the comprehension only
    succeeds on no row at all. *)
Lemma nothing_built_without_exclusion conn ref limit ex results recs :
  truthy_id ex = None ->
  fetch_results conn ref limit ex = Ok results ->
  traverse build results = Ok recs -> recs = [].
Proof.
  intros Ez Ef Et. destruct recs as [|r recs]; [reflexivity|].
  destruct (traverse_in_inv _ _ _ r Et (or_introl eq_refl)) as (row & Irow & Eb).
  destruct (fetch_results_without_exclusion _ _ _ _ _ _ Ez Ef Irow) as (i & t & d & ->).
  rewrite build_three in Eb. discriminate.
Qed.


(** C10: when the exclusion id is absent or 0 and at least one row was
    fetched, the rows have three columns, building the first record raises
    (an [IndexError] at [row[3]], or already a [TypeError] at [1 - row[2]]
    when the distance is NULL), and the handler returns the empty list. *)
Theorem no_exclusion_no_recommendations conn ref limit ex results :
  ex = None \/ ex = Some 0%Z ->
  fetch_results conn ref limit ex = Ok results ->
  results <> [] ->
  exists i t d rest,
    results = [PyInt i; PyStr t; py_float8 d] :: rest
    /\ get_book_recommendations conn ref limit ex
       = ([], [st_error (ErrorGettingRecommendations
                           (match d with None => TypeError | Some _ => IndexError end))]).
Proof.
  intros Hex Ef Hne. apply truthy_id_none in Hex.
  destruct results as [|row rest]; [congruence|].
  destruct (fetch_results_without_exclusion _ _ _ _ _ row Hex Ef (or_introl eq_refl))
    as (i & t & d & ->).
  exists i, t, d, rest. split; [reflexivity|].
  unfold get_book_recommendations. rewrite Ef. cbn [bind traverse].
  rewrite build_three. reflexivity.
Qed.

(** C7 (the code departs from it): on a lost connection [get_book_rating]
    returns its neutral result and reports nothing, whereas the three other
    functions report the failure once. *)
Theorem rating_failure_is_silent book_id ref limit ex :
  get_book_rating Lost book_id = ((None, PyInt 0), [])
  /\ get_book_embedding Lost book_id
     = (PyNone, [st_error (ErrorGettingBookEmbedding DatabaseError)])
  /\ get_book_recommendations Lost ref limit ex
     = ([], [st_error (ErrorGettingRecommendations DatabaseError)])
  /\ get_rating_analytics Lost
     = (([], []), [st_error (ErrorGettingAnalytics DatabaseError)]).
Proof.
  repeat split.
  unfold get_book_recommendations, fetch_results.
  destruct (truthy_id ex); reflexivity.
Qed.

Lemma flat_map_nil {A B : Type} (f : A -> list B) l :
  (forall x, In x l -> f x = []) -> flat_map f l = [].
Proof.
  induction l as [|a t IH]; simpl; intros Hl; [reflexivity|].
  rewrite (Hl a (or_introl eq_refl)), IH; [reflexivity|].
  intros; apply Hl; now right.
Qed.

(** The row of a candidate book without ratings: NULL average, count 0. *)
Lemma unrated_candidate_row (db : database) e z (b : book) :
  ratings_of db (b_id b) = [] ->
  candidate_row e
    (filter (fun j => candidate e z (fst j)) (left_join (books db) (ratings db))) b
  = [PyInt (b_id b); PyStr (b_title b); py_float8 (distance (b_embedding b) e);
     PyNone; PyInt 0].
Proof.
  intros Hr. unfold candidate_row. cbv zeta.
  rewrite candidate_group_ratings, flat_map_nil; [reflexivity|].
  intros x I. apply filter_In in I as [_ E]. apply same_group_eq in E. now subst x.
Qed.

(** C6: for an item without ratings [get_book_rating] returns (None, 0)
    and reports nothing; and when such an item is a candidate, the statement
    still selects its row (NULL average, count 0), and once that row is among
    the fetched ones (the first [limit] that the executor emits, for a limit
    that the store accepts) the returned list holds its record with
    [avg_rating] None and [num_ratings] 0. *)
Theorem unrated_item_is_kept (db : database) i :
  ratings_of db i = [] ->
  get_book_rating (Connected db) i = ((None, PyInt 0), [])
  /\ (forall ref limit ex z e b,
        truthy_id ex = Some z -> reference_embedding db ref = Ok e ->
        In b (books db) -> b_id b = i -> candidate e z b = true ->
        In [PyInt i; PyStr (b_title b); py_float8 (distance (b_embedding b) e);
            PyNone; PyInt 0] (candidate_rows db e z)
        /\ ((0 <= limit < 2 ^ 63)%Z ->
            In [PyInt i; PyStr (b_title b); py_float8 (distance (b_embedding b) e);
                PyNone; PyInt 0] (firstn (Z.to_nat limit) (candidate_rows db e z)) ->
            exists r, In r (fst (get_book_recommendations (Connected db) ref limit ex))
              /\ id r = PyInt i /\ title r = PyStr (b_title b)
              /\ avg_rating r = None /\ num_ratings r = PyInt 0)).
Proof.
  intros Hr. split.
  - unfold get_book_rating. cbn [execute]. unfold rating_summary_query. cbv zeta.
    rewrite Hr. reflexivity.
  - intros ref limit ex z e b Ez Er Ib <- C. split.
    + apply candidate_rows_in. exists b. repeat split; auto.
      symmetry. now apply unrated_candidate_row.
    + intros Hl Irow.
      pose proof (fetch_results_connected _ _ _ _ _ _ Ez Er Hl) as Ef.
      destruct (recommendations_excluding _ _ _ _ _ _ Ez Ef)
        as (db' & e' & recs & _ & _ & _ & _ & Et & ->).
      destruct (traverse_in _ _ _ _ Et Irow) as (r & Eb & Ir).
      destruct (candidate_true _ _ _ C) as (q & Ed & _ & _).
      rewrite Ed in Eb. cbn [py_float8] in Eb.
      change PyNone with (py_numeric None) in Eb. rewrite build_row in Eb.
      injection Eb as <-. eexists. split; [apply sort_by_in; exact Ir|].
      repeat split.
Qed.

(** ** Decoding of a stored embedding *)


(** ** The leaderboard *)

Lemma numeric_le_total x y : numeric_le x y = false -> numeric_le y x = true.
Proof.
  destruct x as [a|], y as [b|]; simpl; try reflexivity; try discriminate.
  intros E. apply Qle_bool_iff.
  destruct (Qlt_le_dec b a) as [Hlt|Hle].
  - now apply Qlt_le_weak.
  - apply Qle_bool_iff in Hle. congruence.
Qed.

Lemma leaderboard_order_total (x y : rated) :
  leaderboard_order x y = false -> leaderboard_order y x = true.
Proof.
  unfold leaderboard_order.
  destruct (numeric_le (g_avg x) (g_avg y)) eqn:Exy.
  - destruct (numeric_le (g_avg y) (g_avg x)) eqn:Eyx; [|reflexivity].
    intros E. apply Z.leb_gt in E. apply Z.leb_le. lia.
  - discriminate.
Qed.

Lemma top_rated_in (db : database) g :
  In g (top_rated db) -> In g (rated_groups db) /\ (3 <= g_count g)%Z.
Proof.
  unfold top_rated. intros I. apply in_firstn, sort_by_in, filter_In in I as [I E].
  split; [assumption | now apply Z.leb_le].
Qed.

Lemma top_rated_sorted (db : database) i g1 g2 :
  nth_error (top_rated db) i = Some g1 -> nth_error (top_rated db) (S i) = Some g2 ->
  leaderboard_order g1 g2 = true.
Proof.
  unfold top_rated. intros E1 E2.
  apply nth_error_firstn_some in E1, E2.
  eapply (locally_sorted_adjacent (fun a b => leaderboard_order a b = true)); eauto.
  apply sort_by_sorted. exact leaderboard_order_total.
Qed.

Lemma inner_join_cons (b : book) bs rs :
  inner_join (b :: bs) rs
  = map (fun r => (b, r)) (filter (fun r => (r_book_id r =? b_id b)%Z) rs)
    ++ inner_join bs rs.
Proof. reflexivity. Qed.

Lemma inner_join_fst bs rs j : In j (inner_join bs rs) -> In (fst j) bs.
Proof.
  unfold inner_join. intros I. apply in_flat_map in I as (b & Ib & I).
  apply in_map_iff in I as (r & <- & _). exact Ib.
Qed.

Lemma filter_inner_join (p : book -> bool) bs rs :
  filter (fun j => p (fst j)) (inner_join bs rs) = inner_join (filter p bs) rs.
Proof.
  induction bs as [|b bs IH]; [reflexivity|].
  rewrite inner_join_cons, filter_app, IH. cbn [filter].
  assert (E : forall l, filter (fun j : book * rating => p (fst j)) (map (fun r => (b, r)) l)
                        = if p b then map (fun r => (b, r)) l else []).
  { induction l as [|x l IHl]; simpl; [now destruct (p b)|].
    rewrite IHl. now destruct (p b). }
  rewrite E. destruct (p b); [now rewrite inner_join_cons | reflexivity].
Qed.

Lemma inner_join_ratings bs rs :
  map (fun j : book * rating => r_rating (snd j)) (inner_join bs rs)
  = flat_map (fun b => map r_rating (filter (fun r => (r_book_id r =? b_id b)%Z) rs)) bs.
Proof.
  induction bs as [|b bs IH]; [reflexivity|].
  rewrite inner_join_cons, map_app, IH, map_map. reflexivity.
Qed.

Lemma filter_none {A : Type} (p : A -> bool) l :
  (forall x, In x l -> p x = false) -> filter p l = [].
Proof.
  induction l as [|a t IH]; simpl; intros Hl; [reflexivity|].
  rewrite (Hl a (or_introl eq_refl)). apply IH. intros; apply Hl; now right.
Qed.

(** With unique identifiers a key of [GROUP BY b.id, b.title] selects one
    book. *)
Lemma unique_id_group (bs : list book) (k : book) :
  NoDup (map b_id bs) -> In k bs -> filter (same_id_title k) bs = [k].
Proof.
  induction bs as [|b bs IH]; simpl; [tauto|].
  intros Hnd. apply NoDup_cons_iff in Hnd as [Hnot Hnd]. intros [->|I].
  - rewrite same_id_title_refl. f_equal. apply filter_none.
    intros x Ix. unfold same_id_title.
    destruct (Z.eqb_spec (b_id k) (b_id x)) as [E|]; [|reflexivity].
    exfalso. apply Hnot. rewrite E. now apply in_map.
  - assert (E : same_id_title k b = false).
    { unfold same_id_title. destruct (Z.eqb_spec (b_id k) (b_id b)) as [E|]; [|reflexivity].
      exfalso. apply Hnot. rewrite <- E. now apply in_map. }
    rewrite E. auto.
Qed.

(** With unique identifiers the ratings joined to a group are the ratings of
    its item. *)
Lemma joined_ratings_unique (db : database) (k : book) :
  NoDup (map b_id (books db)) -> In k (books db) ->
  joined_ratings db k = ratings_of db (b_id k).
Proof.
  intros Hnd I. unfold joined_ratings.
  rewrite filter_inner_join, inner_join_ratings, (unique_id_group _ _ Hnd I).
  simpl. now rewrite app_nil_r.
Qed.

Lemma rated_groups_in (db : database) g :
  In g (rated_groups db) ->
  In (g_book g) (books db)
  /\ g_avg g = sql_avg (joined_ratings db (g_book g))
  /\ g_count g = sql_count (joined_ratings db (g_book g))
  /\ joined_ratings db (g_book g) <> [].
Proof.
  unfold rated_groups. intros I. apply in_map_iff in I as (k & <- & I).
  apply distinct_in in I. cbn [g_book g_avg g_count].
  apply in_map_iff in I as (j & <- & Ij).
  repeat split; [now apply inner_join_fst in Ij|].
  unfold joined_ratings. intros E. apply map_eq_nil in E.
  assert (Hin : In j (filter (fun j' => same_id_title (fst j) (fst j'))
                        (inner_join (books db) (ratings db)))).
  { apply filter_In. split; [assumption | apply same_id_title_refl]. }
  rewrite E in Hin. destruct Hin.
Qed.

Lemma analytics_top_books (db : database) :
  snd (fst (get_rating_analytics (Connected db))) = map leaderboard_row (top_rated db).
Proof. reflexivity. Qed.

Lemma sql_avg_some l : l <> [] -> exists a, sql_avg l = Some a.
Proof. destruct l; [congruence|]. intros _. simpl. eauto. Qed.

(** C9: the leaderboard returned by [get_rating_analytics] has at most 10
    rows; every row carries a count of at least 3; consecutive rows are in
    descending order of average and, at equal averages, of count; and with
    unique identifiers every row is that of an item of the store with its
    own average and count, the count being at least 3. *)
Theorem leaderboard_of_rated_items conn :
  (length (snd (fst (get_rating_analytics conn))) <= 10)%nat
  /\ (forall row, In row (snd (fst (get_rating_analytics conn))) ->
        exists t a n, row = [PyStr t; PyDecimal a; PyInt n] /\ (3 <= n)%Z)
  /\ (forall i t1 a1 n1 t2 a2 n2,
        nth_error (snd (fst (get_rating_analytics conn))) i
          = Some [PyStr t1; PyDecimal a1; PyInt n1] ->
        nth_error (snd (fst (get_rating_analytics conn))) (S i)
          = Some [PyStr t2; PyDecimal a2; PyInt n2] ->
        a2 < a1 \/ (a2 == a1 /\ (n2 <= n1)%Z))
  /\ (forall db, conn = Connected db ->
        snd (fst (get_rating_analytics conn)) = map leaderboard_row (top_rated db)
        /\ (NoDup (map b_id (books db)) ->
            forall g, In g (top_rated db) ->
              In (g_book g) (books db)
              /\ g_avg g = sql_avg (ratings_of db (b_id (g_book g)))
              /\ g_count g = sql_count (ratings_of db (b_id (g_book g)))
              /\ (3 <= sql_count (ratings_of db (b_id (g_book g))))%Z)).
Proof.
  destruct conn as [db|].
  2:{ cbn. repeat split; try lia; try tauto; try discriminate. }
  rewrite analytics_top_books. split; [|split; [|split]].
  - rewrite length_map. unfold top_rated. apply firstn_le_length.
  - intros row I. apply in_map_iff in I as (g & <- & I).
    apply top_rated_in in I as [I Hc].
    apply rated_groups_in in I as (_ & Ea & _ & Hne).
    destruct (sql_avg_some _ Hne) as (a & E). rewrite <- Ea in E.
    unfold leaderboard_row. rewrite E. cbn [py_numeric]. eauto.
  - intros i t1 a1 n1 t2 a2 n2. rewrite !nth_error_map.
    destruct (nth_error (top_rated db) i) as [g1|] eqn:E1; [|discriminate].
    destruct (nth_error (top_rated db) (S i)) as [g2|] eqn:E2; [|discriminate].
    pose proof (top_rated_sorted _ _ _ _ E1 E2) as Ho.
    unfold leaderboard_row. cbn [option_map]. intros [= _ Ea1 En1] [= _ Ea2 En2].
    unfold leaderboard_order in Ho. rewrite En1, En2 in Ho.
    destruct (g_avg g1) as [x1|]; [|discriminate].
    destruct (g_avg g2) as [x2|]; [|discriminate].
    injection Ea1 as ->. injection Ea2 as ->. cbn [numeric_le] in Ho.
    destruct (Qle_bool a1 a2) eqn:L12.
    + destruct (Qle_bool a2 a1) eqn:L21; [|discriminate].
      right. apply Qle_bool_iff in L12, L21. apply Z.leb_le in Ho.
      split; [now apply Qle_antisym | assumption].
    + left. apply Qnot_le_lt. intros Hle. apply Qle_bool_iff in Hle. congruence.
  - intros db' [= <-]. split; [reflexivity|].
    intros Hnd g I. apply top_rated_in in I as [I Hc].
    apply rated_groups_in in I as (Ib & Ea & Ec & _).
    rewrite (joined_ratings_unique _ _ Hnd Ib) in Ea, Ec.
    repeat split; try assumption. now rewrite <- Ec.
Qed.

(** ** The scenario of the specification *)

Lemma filter_permutation {A : Type} (p : A -> bool) l l' :
  Permutation l l' -> Permutation (filter p l) (filter p l').
Proof.
  induction 1 as [|x l l' Hp IH|x y l|l l' l'' H1 IH1 H2 IH2]; simpl.
  - constructor.
  - destruct (p x); [now constructor | assumption].
  - destruct (p x), (p y); try reflexivity. apply perm_swap.
  - now transitivity (filter p l').
Qed.

(** The row of a candidate whose group holds no other row of the table. *)
Lemma single_candidate_row (db : database) e z (k : book) :
  filter (same_group k) (filter (candidate e z) (books db)) = [k] ->
  candidate_row e
    (filter (fun j => candidate e z (fst j)) (left_join (books db) (ratings db))) k
  = [PyInt (b_id k); PyStr (b_title k); py_float8 (distance (b_embedding k) e);
     py_numeric (sql_avg (ratings_of db (b_id k)));
     PyInt (sql_count (ratings_of db (b_id k)))].
Proof.
  intros E. unfold candidate_row. cbv zeta.
  rewrite candidate_group_ratings, E. simpl. now rewrite app_nil_r.
Qed.

Lemma candidate_rows_keys (db : database) e z :
  candidate_rows db e z
  = map (candidate_row e
           (filter (fun j => candidate e z (fst j)) (left_join (books db) (ratings db))))
        (emitted_groups (distinct same_group (filter (candidate e z) (books db)))).
Proof. unfold candidate_rows. cbv zeta. now rewrite candidate_keys. Qed.

Lemma same_group_ids (x y : book) : b_id x <> b_id y -> same_group x y = false.
Proof.
  intros Hn. unfold same_group. destruct (Z.eqb_spec (b_id x) (b_id y)); [contradiction|].
  reflexivity.
Qed.

(** C5: in a store that holds exactly the items A, B and C (in any scan
    order, its executor emitting the groups in any order), B at distance 0 of
    A with five ratings of sum 21 (average 4.2)
    and C at distance 1 of A without ratings, the recommendations for A with
    limit 10 and A excluded are the record of B (similarity 1, average 4.2,
    count 5) followed by the record of C (similarity 0, no average,
    count 0). *)
Theorem scenario_recommendations (db : database) (A B C : book) (eA eB eC : vector) :
  Permutation (books db) [A; B; C] ->
  b_id A <> b_id B -> b_id A <> b_id C -> b_id B <> b_id C -> b_id A <> 0%Z ->
  b_embedding A = Some eA -> b_embedding B = Some eB -> b_embedding C = Some eC ->
  cosine_distance eB eA = Fin 0 -> cosine_distance eC eA = Fin 1 ->
  sql_count (ratings_of db (b_id B)) = 5%Z ->
  sql_sum (ratings_of db (b_id B)) = 21%Z ->
  ratings_of db (b_id C) = [] ->
  get_book_recommendations (Connected db) (b_id A) 10 (Some (b_id A))
  = ([ {| id := PyInt (b_id B); title := PyStr (b_title B); similarity_score := 1;
          avg_rating := Some (Fin (21 # 5)); num_ratings := PyInt 5 |};
       {| id := PyInt (b_id C); title := PyStr (b_title C); similarity_score := 0;
          avg_rating := None; num_ratings := PyInt 0 |} ],
     []).
Proof.
  intros Hp HAB HAC HBC HA0 EA EB EC DB DC Hn Hs HC.
  (* the scalar subquery finds A alone *)
  assert (Er : reference_embedding db (b_id A) = Ok (Some eA)).
  { unfold reference_embedding.
    pose proof (filter_permutation (fun b => (b_id b =? b_id A)%Z) _ _ Hp) as Hf.
    simpl in Hf. rewrite Z.eqb_refl in Hf.
    destruct (Z.eqb_spec (b_id B) (b_id A)); [congruence|].
    destruct (Z.eqb_spec (b_id C) (b_id A)); [congruence|].
    symmetry in Hf. apply Permutation_length_1_inv in Hf. rewrite Hf. now rewrite EA. }
  (* the WHERE clause keeps B and C *)
  assert (CA : candidate (Some eA) (b_id A) A = false).
  { unfold candidate. now rewrite Z.eqb_refl, andb_false_r. }
  assert (CB : candidate (Some eA) (b_id A) B = true).
  { unfold candidate. rewrite EB. cbn [distance]. rewrite DB.
    destruct (Z.eqb_spec (b_id B) (b_id A)); [congruence | reflexivity]. }
  assert (CC : candidate (Some eA) (b_id A) C = true).
  { unfold candidate. rewrite EC. cbn [distance]. rewrite DC.
    destruct (Z.eqb_spec (b_id C) (b_id A)); [congruence | reflexivity]. }
  pose proof (filter_permutation (candidate (Some eA) (b_id A)) _ _ Hp) as Hc.
  simpl in Hc. rewrite CA, CB, CC in Hc. symmetry in Hc.
  (* the aggregates of B and C *)
  assert (AvgB : sql_avg (ratings_of db (b_id B)) = Some (21 # 5)).
  { unfold sql_count in Hn. unfold sql_avg.
    destruct (ratings_of db (b_id B)) as [|x l] eqn:El; [discriminate|].
    rewrite Hs, Hn. reflexivity. }
  assert (SBB := same_group_refl B). assert (SCC := same_group_refl C).
  assert (SBC := same_group_ids B C HBC).
  assert (SCB : same_group C B = false) by (apply same_group_ids; congruence).
  assert (Rows : candidate_rows db (Some eA) (b_id A)
                 = [[PyInt (b_id B); PyStr (b_title B); PyFloat (Fin 0);
                     py_numeric (Some (21 # 5)); PyInt 5];
                    [PyInt (b_id C); PyStr (b_title C); PyFloat (Fin 1);
                     py_numeric None; PyInt 0]]
                 \/ candidate_rows db (Some eA) (b_id A)
                    = [[PyInt (b_id C); PyStr (b_title C); PyFloat (Fin 1);
                        py_numeric None; PyInt 0];
                       [PyInt (b_id B); PyStr (b_title B); PyFloat (Fin 0);
                        py_numeric (Some (21 # 5)); PyInt 5]]).
  { rewrite candidate_rows_keys.
    (* the executor emits the two groups in one order or the other *)
    assert (Hk : emitted_groups
                   (distinct same_group (filter (candidate (Some eA) (b_id A)) (books db)))
                 = [B; C]
                 \/ emitted_groups
                      (distinct same_group (filter (candidate (Some eA) (b_id A)) (books db)))
                    = [C; B]).
    { apply Permutation_length_2_inv.
      etransitivity; [|apply emitted_groups_perm].
      apply Permutation_length_2_inv in Hc as [Hc|Hc]; rewrite Hc;
        cbn [distinct filter]; rewrite ?SBC, ?SCB; cbn [negb filter];
        [reflexivity | apply perm_swap]. }
    assert (FB : filter (same_group B) (filter (candidate (Some eA) (b_id A)) (books db))
                 = [B]).
    { apply Permutation_length_2_inv in Hc as [Hc|Hc]; rewrite Hc; cbn [filter];
        rewrite ?SBB, ?SBC; reflexivity. }
    assert (FC : filter (same_group C) (filter (candidate (Some eA) (b_id A)) (books db))
                 = [C]).
    { apply Permutation_length_2_inv in Hc as [Hc|Hc]; rewrite Hc; cbn [filter];
        rewrite ?SCC, ?SCB; reflexivity. }
    destruct Hk as [Hk|Hk]; [left | right]; rewrite Hk; cbn [map];
      rewrite !single_candidate_row by assumption;
      rewrite EB, EC; cbn [distance py_float8]; rewrite DB, DC, AvgB, Hn, HC;
      reflexivity. }
  (* the function *)
  assert (Ez : truthy_id (Some (b_id A)) = Some (b_id A)).
  { apply truthy_id_some. now split. }
  unfold get_book_recommendations.
  rewrite (fetch_results_connected _ _ 10%Z _ _ _ Ez Er) by lia.
  change (Z.to_nat 10) with 10%nat.
  destruct Rows as [-> | ->]; cbn [firstn bind traverse];
    rewrite !build_row; reflexivity.
Qed.

End Facts.

(** * The statements on the concrete stores *)

(** What [scenario_db] answers to the statement with an exclusion id, [item_A]
    being the reference and the excluded item: [item_C] comes first in the
    scan. *)
Lemma scenario_results :
  @fetch_results unit_store (Connected scenario_db) 1 10 (Some 1%Z)
  = Ok [[PyInt 3; PyStr "C"; PyFloat (Fin 1); PyNone; PyInt 0];
        [PyInt 2; PyStr "B"; PyFloat (Fin 0); PyDecimal (21 # 5); PyInt 5]].
Proof. vm_compute. reflexivity. Qed.

Lemma similarity_of_fetched_row_witness :
  exists r,
    In r (fst (@get_book_recommendations unit_store (Connected scenario_db) 1 10 (Some 1%Z)))
    /\ id r = PyInt 2 /\ title r = PyStr "B"
    /\ similarity_score r == Qmax 0 (1 - 0)
    /\ 0 <= similarity_score r <= 1
    /\ (0 == 0 -> similarity_score r == 1)
    /\ (1 <= 0 -> similarity_score r == 0).
Proof.
  apply (@similarity_of_fetched_row unit_store (Connected scenario_db) 1 10 (Some 1%Z)
           [[PyInt 3; PyStr "C"; PyFloat (Fin 1); PyNone; PyInt 0];
            [PyInt 2; PyStr "B"; PyFloat (Fin 0); PyDecimal (21 # 5); PyInt 5]]
           [PyInt 2; PyStr "B"; PyFloat (Fin 0); PyDecimal (21 # 5); PyInt 5]
           (PyInt 2) (PyStr "B") 0 (PyDecimal (21 # 5)) (PyInt 5)).
  - exact scenario_results.
  - simpl. right. left. reflexivity.
  - reflexivity.
  - split; unfold Qle; simpl; lia.
Defined.

Lemma recommendations_sorted_descending_witness :
  similarity_score
    {| id := PyInt 3; title := PyStr "C"; similarity_score := 0;
       avg_rating := None; num_ratings := PyInt 0 |}
  <= similarity_score
       {| id := PyInt 2; title := PyStr "B"; similarity_score := 1;
          avg_rating := Some (Fin (21 # 5)); num_ratings := PyInt 5 |}.
Proof.
  apply (@recommendations_sorted_descending unit_store (Connected scenario_db) 1 10
           (Some 1%Z) 0%nat).
  - vm_compute. reflexivity.
  - vm_compute. reflexivity.
Defined.

Lemma exclusion_id_never_recommended_witness :
  id {| id := PyInt 2; title := PyStr "B"; similarity_score := 1;
        avg_rating := Some (Fin (21 # 5)); num_ratings := PyInt 5 |}
  <> PyInt 1.
Proof.
  apply (@exclusion_id_never_recommended unit_store (Connected scenario_db) 1 10 1).
  vm_compute. left. reflexivity.
Defined.


(** The cap precedes the ranking. With limit 1 the statement returns the
    group that the executor emits first and the function returns its record:
    on the scenario that is [item_C], at similarity 0, when the groups come
    in the order of the scan, and the item B, at similarity 1, when they come
    in ascending order of id. With limit 10 both rows are fetched under
    either order, and B heads the list. *)
Lemma cap_precedes_ranking_example :
  map id (fst (@get_book_recommendations unit_store (Connected scenario_db) 1 1 (Some 1%Z)))
  = [PyInt 3]
  /\ map id (fst (@get_book_recommendations sorted_store (Connected sorted_scenario_db)
                    1 1 (Some 1%Z)))
     = [PyInt 2]
  /\ map id (fst (@get_book_recommendations unit_store (Connected scenario_db) 1 10
                    (Some 1%Z)))
     = [PyInt 2; PyInt 3]
  /\ map id (fst (@get_book_recommendations sorted_store (Connected sorted_scenario_db)
                    1 10 (Some 1%Z)))
     = [PyInt 2; PyInt 3].
Proof. repeat split; vm_compute; reflexivity. Qed.

(** A limit of 2^63 is no [bigint]: the store refuses the statement, and the
    function returns the empty list and reports the failure. *)
Lemma limit_out_of_range_example :
  @get_book_recommendations unit_store (Connected scenario_db) 1 (2 ^ 63) (Some 1%Z)
  = ([], [st_error (ErrorGettingRecommendations DatabaseError)]).
Proof. vm_compute. reflexivity. Qed.

Lemma scenario_recommendations_witness :
  @get_book_recommendations unit_store (Connected scenario_db) 1 10 (Some 1%Z)
  = ([ {| id := PyInt 2; title := PyStr "B"; similarity_score := 1;
          avg_rating := Some (Fin (21 # 5)); num_ratings := PyInt 5 |};
       {| id := PyInt 3; title := PyStr "C"; similarity_score := 0;
          avg_rating := None; num_ratings := PyInt 0 |} ],
     []).
Proof.
  apply (@scenario_recommendations unit_store scenario_db item_A item_B item_C
           [1; 0; 0] [1; 0; 0] [0; 1; 0]).
  - simpl. apply perm_skip. apply perm_swap.
  - simpl. lia.
  - simpl. lia.
  - simpl. lia.
  - simpl. lia.
  - reflexivity.
  - reflexivity.
  - reflexivity.
  - vm_compute. reflexivity.
  - vm_compute. reflexivity.
  - vm_compute. reflexivity.
  - vm_compute. reflexivity.
  - vm_compute. reflexivity.
Defined.

Lemma unrated_item_is_kept_witness :
  @get_book_rating unit_store (Connected scenario_db) 3 = ((None, PyInt 0), [])
  /\ In [PyInt 3; PyStr "C"; PyFloat (Fin 1); PyNone; PyInt 0]
        (@candidate_rows unit_store scenario_db (Some [1; 0; 0]) 1)
  /\ exists r,
       In r (fst (@get_book_recommendations unit_store (Connected scenario_db) 1 10 (Some 1%Z)))
       /\ id r = PyInt 3 /\ title r = PyStr "C"
       /\ avg_rating r = None /\ num_ratings r = PyInt 0.
Proof.
  assert (Hr : @ratings_of unit_store scenario_db 3 = []) by reflexivity.
  pose proof (@unrated_item_is_kept unit_store scenario_db 3 Hr) as [Hg Hk].
  split; [exact Hg|].
  destruct (Hk 1%Z 10%Z (Some 1%Z) 1%Z (Some [1; 0; 0]) item_C) as [Hrow Hrec].
  - reflexivity.
  - reflexivity.
  - simpl. right. left. reflexivity.
  - reflexivity.
  - vm_compute. reflexivity.
  - split; [exact Hrow|]. apply Hrec.
    + lia.
    + vm_compute. left. reflexivity.
Defined.



(** The leaderboard of [leaderboard_db]: [X] is left out with its average of
    5, and [Z] precedes [Y] at the same average with more ratings. *)
Lemma leaderboard_example :
  snd (fst (@get_rating_analytics unit_store (Connected leaderboard_db)))
  = [[PyStr "W"; PyDecimal (13 # 3); PyInt 3];
     [PyStr "Z"; PyDecimal (16 # 4); PyInt 4];
     [PyStr "Y"; PyDecimal (12 # 3); PyInt 3]].
Proof. vm_compute. reflexivity. Qed.

Lemma leaderboard_of_rated_items_witness :
  (exists t a n,
     [PyStr "W"; PyDecimal (13 # 3); PyInt 3] = [PyStr t; PyDecimal a; PyInt n]
     /\ (3 <= n)%Z)
  /\ ((16 # 4) < (13 # 3) \/ ((16 # 4) == (13 # 3) /\ (4 <= 3)%Z))
  /\ (3 <= sql_count (@ratings_of unit_store leaderboard_db 4))%Z.
Proof.
  pose proof (@leaderboard_of_rated_items unit_store (Connected leaderboard_db))
    as (_ & Hrow & Hord & Hdb).
  split; [|split].
  - apply Hrow. vm_compute. left. reflexivity.
  - apply (Hord 0%nat "W"%string (13 # 3) 3%Z "Z"%string (16 # 4) 4%Z);
      vm_compute; reflexivity.
  - destruct (Hdb leaderboard_db eq_refl) as [_ Hg].
    assert (Hnd : NoDup (map b_id (books leaderboard_db))).
    { simpl. repeat constructor; simpl; intuition lia. }
    apply (Hg Hnd {| g_book := @Build_book unit_store 4 "W" None;
                     g_avg := Some (13 # 3); g_count := 3 |}).
    vm_compute. left. reflexivity.
Defined.

Lemma no_exclusion_no_recommendations_witness :
  exists i t d rest,
    [[PyInt 1; PyStr "A"; PyFloat (Fin 0)]; [PyInt 2; PyStr "B"; PyFloat (Fin 0)];
     [PyInt 3; PyStr "C"; PyFloat (Fin 1)]]
    = [PyInt i; PyStr t; py_float8 d] :: rest
    /\ @get_book_recommendations unit_store (Connected scenario_db) 1 10 None
       = ([], [st_error (ErrorGettingRecommendations
                           (match d with None => TypeError | Some _ => IndexError end))]).
Proof.
  apply (@no_exclusion_no_recommendations unit_store (Connected scenario_db) 1 10 None).
  - left. reflexivity.
  - vm_compute. reflexivity.
  - discriminate.
Defined.

(** * Further properties of the code *)

(** ** [get_all_books] *)

Lemma traverse_map_ok {A B C : Type} (f : B -> result C) (g : A -> B) (h : A -> C) l :
  (forall x, f (g x) = Ok (h x)) -> traverse f (map g l) = Ok (map h l).
Proof.
  intros Hf. induction l as [|a t IH]; simpl; [reflexivity|].
  now rewrite Hf, IH.
Qed.

Lemma get_all_books_connected `{Store} (collate : string -> string -> bool) (db : database) :
  get_all_books collate (Connected db)
  = (map (fun b => {| entry_id := PyInt (b_id b); entry_title := PyStr (b_title b) |})
         (sort_by (fun x y => collate (b_title x) (b_title y)) (books db)), []).
Proof.
  unfold get_all_books. cbn [execute]. unfold all_books_query. cbn [bind].
  rewrite (traverse_map_ok _ _
             (fun b => {| entry_id := PyInt (b_id b); entry_title := PyStr (b_title b) |}));
    reflexivity.
Qed.

(** X1: on a live connection [get_all_books] returns one entry per row of the
    table of books, none dropped and none repeated, and reports nothing; on a
    lost connection it returns the empty list and reports the failure
    once. *)
Theorem all_books_listed `{Store} (collate : string -> string -> bool) (db : database) :
  Permutation
    (map (fun e => (entry_id e, entry_title e)) (fst (get_all_books collate (Connected db))))
    (map (fun b => (PyInt (b_id b), PyStr (b_title b))) (books db))
  /\ snd (get_all_books collate (Connected db)) = []
  /\ get_all_books collate Lost = ([], [st_error_getting_books DatabaseError]).
Proof.
  rewrite get_all_books_connected. cbn [fst snd]. split; [|split; reflexivity].
  rewrite map_map. cbn [entry_id entry_title].
  apply Permutation_map. symmetry. apply sort_by_perm.
Qed.

(** X2: under a total collation, the entries returned by [get_all_books] are
    in the order of their titles: each title sorts no later than the next. *)
Theorem all_books_sorted `{Store} (collate : string -> string -> bool) (db : database)
  i e1 e2 :
  (forall a b, collate a b = false -> collate b a = true) ->
  nth_error (fst (get_all_books collate (Connected db))) i = Some e1 ->
  nth_error (fst (get_all_books collate (Connected db))) (S i) = Some e2 ->
  exists t1 t2,
    entry_title e1 = PyStr t1 /\ entry_title e2 = PyStr t2 /\ collate t1 t2 = true.
Proof.
  intros Htot. rewrite get_all_books_connected. cbn [fst]. rewrite !nth_error_map.
  destruct (nth_error _ i) as [b1|] eqn:E1; [|discriminate].
  destruct (nth_error _ (S i)) as [b2|] eqn:E2; [|discriminate].
  cbn [option_map]. intros [= <-] [= <-]. cbn [entry_title].
  exists (b_title b1), (b_title b2). repeat split.
  apply (locally_sorted_adjacent
           (fun x y => collate (b_title x) (b_title y) = true)
           (sort_by (fun x y => collate (b_title x) (b_title y)) (books db)) i b1 b2);
    auto.
  apply sort_by_sorted. intros x y. apply Htot.
Qed.

Lemma leb_total_false (a b : string) : String.leb a b = false -> String.leb b a = true.
Proof.
  intros E. destruct (String.leb_total a b) as [E'|E']; [congruence | exact E'].
Qed.

Lemma all_books_sorted_witness :
  exists t1 t2,
    entry_title {| entry_id := PyInt 2; entry_title := PyStr "Circe" |} = PyStr t1
    /\ entry_title {| entry_id := PyInt 1; entry_title := PyStr "Dune" |} = PyStr t2
    /\ String.leb t1 t2 = true.
Proof.
  apply (@all_books_sorted unit_store String.leb shelf_db 0%nat).
  - exact leb_total_false.
  - vm_compute. reflexivity.
  - vm_compute. reflexivity.
Defined.

(** ** The rating trend of [get_rating_analytics] *)

Lemma distinct_in_Z l x : In x (distinct Z.eqb l) <-> In x l.
Proof.
  split; [apply distinct_in|].
  apply distinct_complete. intros a b. apply Z.eqb_eq.
Qed.

Lemma distinct_NoDup_Z l : NoDup (distinct Z.eqb l).
Proof.
  induction l as [|x t IH]; simpl; constructor.
  - intros I. apply filter_In in I as [_ E]. now rewrite Z.eqb_refl in E.
  - now apply NoDup_filter.
Qed.

Lemma filter_all {A : Type} (p : A -> bool) l :
  (forall x, In x l -> p x = true) -> filter p l = l.
Proof.
  induction l as [|a t IH]; simpl; intros Hl; [reflexivity|].
  rewrite (Hl a (or_introl eq_refl)). f_equal. apply IH. intros; apply Hl; now right.
Qed.

Lemma filter_comm {A : Type} (p q : A -> bool) l :
  filter p (filter q l) = filter q (filter p l).
Proof.
  induction l as [|a t IH]; simpl; [reflexivity|].
  destruct (p a) eqn:Ep, (q a) eqn:Eq; simpl; rewrite ?Ep, ?Eq, IH; reflexivity.
Qed.

(** Selecting keys before or after grouping gives the same groups. *)
Lemma distinct_filter_Z (p : Z -> bool) l :
  filter p (distinct Z.eqb l) = distinct Z.eqb (filter p l).
Proof.
  induction l as [|a t IH]; [reflexivity|].
  cbn [distinct filter]. destruct (p a) eqn:Ea; cbn [distinct].
  - f_equal. now rewrite filter_comm, IH.
  - rewrite filter_comm, IH. apply filter_all.
    intros x I. apply distinct_in_Z, filter_In in I as [_ Ex].
    destruct (Z.eqb_spec a x); [congruence | reflexivity].
Qed.

Lemma filter_map_comm {A B : Type} (f : A -> B) (p : B -> bool) l :
  filter p (map f l) = map f (filter (fun x => p (f x)) l).
Proof.
  induction l as [|a t IH]; simpl; [reflexivity|].
  destruct (p (f a)); simpl; now rewrite IH.
Qed.

Lemma filter_split_length {A : Type} (p : A -> bool) l :
  (length (filter p l) + length (filter (fun x => negb (p x)) l))%nat = length l.
Proof.
  induction l as [|a t IH]; simpl; [reflexivity|].
  destruct (p a); simpl; lia.
Qed.

Lemma filter_filter_implied {A : Type} (p q : A -> bool) l :
  (forall x, p x = true -> q x = true) -> filter p (filter q l) = filter p l.
Proof.
  intros Hpq. induction l as [|a t IH]; simpl; [reflexivity|].
  destruct (q a) eqn:Eq; simpl.
  - destruct (p a); now rewrite IH.
  - destruct (p a) eqn:Ep; [apply Hpq in Ep; congruence | exact IH].
Qed.

(** The sizes of the groups of a GROUP BY add up to the number of rows. *)
Lemma group_sizes_sum {A : Type} (f : A -> Z) (l : list A) :
  sql_sum (map (fun k => sql_count (filter (fun x => (f x =? k)%Z) l))
               (distinct Z.eqb (map f l)))
  = sql_count l.
Proof.
  remember (length l) as n eqn:Hn. assert (Hle : (length l <= n)%nat) by lia.
  clear Hn. revert l Hle. induction n as [|n IH]; intros l Hle.
  - destruct l; [reflexivity | simpl in Hle; lia].
  - destruct l as [|x t]; [reflexivity|]. simpl in Hle.
    cbn [map distinct]. rewrite distinct_filter_Z, filter_map_comm.
    set (rest := filter (fun y => negb (f x =? f y)%Z) t).
    cbn [map sql_sum fold_right].
    assert (Hmap : map (fun k => sql_count (filter (fun y => (f y =? k)%Z) (x :: t)))
                       (distinct Z.eqb (map f rest))
                   = map (fun k => sql_count (filter (fun y => (f y =? k)%Z) rest))
                         (distinct Z.eqb (map f rest))).
    { apply map_ext_in. intros k Ik. f_equal.
      apply distinct_in_Z, in_map_iff in Ik as (y & <- & Iy).
      apply filter_In in Iy as [_ Ey]. apply negb_true_iff in Ey.
      cbn [filter]. rewrite Ey. unfold rest. symmetry.
      apply filter_filter_implied. intros z Ez. apply Z.eqb_eq in Ez.
      rewrite Ez. now rewrite Ey. }
    fold (sql_sum (map (fun k => sql_count (filter (fun y => (f y =? k)%Z) (x :: t)))
                       (distinct Z.eqb (map f rest)))).
    rewrite Hmap, IH.
    + cbn [filter]. rewrite Z.eqb_refl. unfold sql_count. cbn [length].
      pose proof (filter_split_length (fun y => (f x =? f y)%Z) t) as Hs.
      cbv beta in Hs. unfold rest.
      assert (Hsym : filter (fun y => (f y =? f x)%Z) t = filter (fun y => (f x =? f y)%Z) t).
      { apply filter_ext. intros y. apply Z.eqb_sym. }
      rewrite Hsym. lia.
    + unfold rest. pose proof (filter_split_length (fun y => (f x =? f y)%Z) t) as Hs.
      cbv beta in Hs. lia.
Qed.

Lemma sql_sum_perm l l' : Permutation l l' -> sql_sum l = sql_sum l'.
Proof.
  unfold sql_sum. induction 1; simpl; lia.
Qed.

Section TrendFacts.
Context `{Store}.

Lemma trend_rows (db : database) :
  fst (fst (get_rating_analytics (Connected db)))
  = map (fun g => [PyDate (fst (fst g)); py_numeric (snd (fst g)); PyInt (snd g)])
        (trend_groups db).
Proof. reflexivity. Qed.

Lemma trend_days (db : database) :
  Permutation (map (fun g => fst (fst g)) (trend_groups db))
              (distinct Z.eqb (map (fun r => date (r_ts r)) (window_ratings db))).
Proof.
  unfold trend_groups. etransitivity.
  - apply Permutation_map. symmetry. apply sort_by_perm.
  - rewrite map_map. cbn [fst]. rewrite map_id. reflexivity.
Qed.

Lemma trend_groups_in (db : database) g :
  In g (trend_groups db) ->
  exists r, In r (window_ratings db) /\ fst (fst g) = date (r_ts r)
    /\ snd (fst g)
       = sql_avg (map r_rating
                    (filter (fun x => (date (r_ts x) =? fst (fst g))%Z) (window_ratings db)))
    /\ snd g
       = sql_count (filter (fun x => (date (r_ts x) =? fst (fst g))%Z) (window_ratings db)).
Proof.
  unfold trend_groups. intros I. apply sort_by_in, in_map_iff in I as (d & <- & I).
  apply distinct_in_Z, in_map_iff in I as (r & <- & I).
  exists r. cbn [fst snd]. auto.
Qed.

(** X3: the rows of the rating trend are in strictly ascending order of
    date: no day appears twice. *)
Theorem trend_dates_ascending conn i d1 a1 n1 d2 a2 n2 :
  nth_error (fst (fst (get_rating_analytics conn))) i = Some [PyDate d1; a1; n1] ->
  nth_error (fst (fst (get_rating_analytics conn))) (S i) = Some [PyDate d2; a2; n2] ->
  (d1 < d2)%Z.
Proof.
  destruct conn as [db|]; [|destruct i; discriminate].
  rewrite trend_rows, !nth_error_map.
  destruct (nth_error (trend_groups db) i) as [g1|] eqn:E1; [|discriminate].
  destruct (nth_error (trend_groups db) (S i)) as [g2|] eqn:E2; [|discriminate].
  cbn [option_map]. intros [= <- _ _] [= <- _ _].
  assert (Hle : (fst (fst g1) <=? fst (fst g2))%Z = true).
  { apply (locally_sorted_adjacent
             (fun x y => (fst (fst x) <=? fst (fst y))%Z = true) (trend_groups db) i);
      auto.
    unfold trend_groups. apply sort_by_sorted.
    intros x y E. apply Z.leb_gt in E. apply Z.leb_le. lia. }
  apply Z.leb_le in Hle.
  assert (Hnd : NoDup (map (fun g => fst (fst g)) (trend_groups db))).
  { eapply Permutation_NoDup; [symmetry; apply trend_days | apply distinct_NoDup_Z]. }
  assert (Hne : fst (fst g1) <> fst (fst g2)).
  { intros Heq.
    assert (Hi : i = S i); [|lia].
    apply (proj1 (NoDup_nth_error _) Hnd).
    - rewrite length_map. apply nth_error_Some. congruence.
    - rewrite !nth_error_map, E1, E2. cbn [option_map]. now rewrite Heq. }
  lia.
Qed.

(** X4: every row of the rating trend is a day on which a rating of the
    window was given, with the number of the window's ratings of that day
    (at least 1) and their exact average; the day is not earlier than the
    one of [NOW() - 30 days]. *)
Theorem trend_row_of_a_day conn (db : database) row :
  conn = Connected db ->
  In row (fst (fst (get_rating_analytics conn))) ->
  exists d a n,
    row = [PyDate d; PyDecimal a; PyInt n]
    /\ (1 <= n)%Z
    /\ n = sql_count (filter (fun r => (date (r_ts r) =? d)%Z) (window_ratings db))
    /\ sql_avg (map r_rating
                  (filter (fun r => (date (r_ts r) =? d)%Z) (window_ratings db)))
       = Some a
    /\ (date (now db - 30 * 86400) <= d)%Z.
Proof.
  intros -> I. rewrite trend_rows in I. apply in_map_iff in I as (g & <- & I).
  apply trend_groups_in in I as (r & Ir & Ed & Ea & En).
  assert (Hin : In r (filter (fun x => (date (r_ts x) =? fst (fst g))%Z) (window_ratings db))).
  { apply filter_In. split; [assumption|]. rewrite Ed. apply Z.eqb_refl. }
  destruct (filter (fun x => (date (r_ts x) =? fst (fst g))%Z) (window_ratings db))
    as [|x l] eqn:Ef; [destruct Hin|].
  rewrite Ea, En. cbn [map sql_avg py_numeric].
  eexists _, _, _. split; [reflexivity|]. rewrite Ef. split; [|split; [|split]].
  - unfold sql_count. cbn [length]. lia.
  - reflexivity.
  - reflexivity.
  - rewrite Ed. unfold window_ratings in Ir. apply filter_In in Ir as [_ Ew].
    apply Z.leb_le in Ew. unfold date. apply Z.div_le_mono; lia.
Qed.

(** X5: the counts of the rows of the rating trend add up to the number of
    ratings in the window, so that every rating of the window is counted
    once; and the trend is empty exactly when the window holds no rating. *)
Theorem trend_counts_every_rating (db : database) :
  sql_sum (map trend_count (fst (fst (get_rating_analytics (Connected db)))))
  = sql_count (window_ratings db)
  /\ (fst (fst (get_rating_analytics (Connected db))) = [] <-> window_ratings db = []).
Proof.
  assert (Hsum : sql_sum (map trend_count (fst (fst (get_rating_analytics (Connected db)))))
                 = sql_count (window_ratings db)).
  { rewrite trend_rows, map_map. cbn [trend_count nth_error].
    unfold trend_groups.
    rewrite <- (sql_sum_perm _ _ (Permutation_map _ (sort_by_perm _ _))).
    rewrite map_map. cbn [snd]. apply group_sizes_sum. }
  split; [exact Hsum|]. split; intros E.
  - rewrite E in Hsum. cbn in Hsum. unfold sql_count in Hsum.
    destruct (window_ratings db); [reflexivity | simpl in Hsum; lia].
  - rewrite trend_rows. unfold trend_groups. rewrite E. reflexivity.
Qed.

End TrendFacts.

Lemma trend_dates_ascending_witness : (39 < 40)%Z.
Proof.
  apply (@trend_dates_ascending unit_store (Connected shelf_db) 0%nat
           39%Z (PyDecimal 5) (PyInt 1) 40%Z (PyDecimal (6 # 2)) (PyInt 2));
    vm_compute; reflexivity.
Defined.

Lemma trend_row_of_a_day_witness :
  exists d a n,
    [PyDate 40; PyDecimal (6 # 2); PyInt 2] = [PyDate d; PyDecimal a; PyInt n]
    /\ (1 <= n)%Z
    /\ n = sql_count (filter (fun r => (date (r_ts r) =? d)%Z)
                        (@window_ratings unit_store shelf_db))
    /\ sql_avg (map r_rating
                  (filter (fun r => (date (r_ts r) =? d)%Z)
                     (@window_ratings unit_store shelf_db)))
       = Some a
    /\ (date (now shelf_db - 30 * 86400) <= d)%Z.
Proof.
  apply (@trend_row_of_a_day unit_store (Connected shelf_db) shelf_db).
  - reflexivity.
  - vm_compute. right. left. reflexivity.
Defined.

(** ** [get_book_rating] and [get_book_embedding] on their own *)

Lemma average_zero (s n : Z) :
  (0 < n)%Z -> (inject_Z s / inject_Z n == 0 <-> s = 0%Z).
Proof.
  intros Hn. destruct n as [|p|p]; try lia.
  unfold Qeq, Qdiv, Qmult, Qinv. simpl. lia.
Qed.

Section RatingFacts.
Context `{Store}.

(** What [get_book_rating] returns on a live connection, by the sum of the
    item's ratings. *)
Lemma get_book_rating_connected (db : database) i :
  get_book_rating (Connected db) i
  = if (sql_sum (ratings_of db i) =? 0)%Z
    then ((None, PyInt 0), [])
    else ((Some (Fin (inject_Z (sql_sum (ratings_of db i))
                      / inject_Z (sql_count (ratings_of db i)))),
           PyInt (sql_count (ratings_of db i))), []).
Proof.
  unfold get_book_rating. cbn [execute]. unfold rating_summary_query. cbv zeta.
  cbn [bind fetchone hd_error index nth_error].
  destruct (ratings_of db i) as [|x l] eqn:Er; [reflexivity|].
  cbn [sql_avg py_numeric truthy]. fold (sql_count (x :: l)).
  assert (Hn : (0 < sql_count (x :: l))%Z) by (unfold sql_count; cbn [length]; lia).
  destruct (Qeq_bool (inject_Z (sql_sum (x :: l)) / inject_Z (sql_count (x :: l))) 0) eqn:E.
  - apply Qeq_bool_iff, average_zero in E; [|assumption]. rewrite E. reflexivity.
  - destruct (Z.eqb_spec (sql_sum (x :: l)) 0) as [E0|E0]; [|reflexivity].
    apply (average_zero _ _ Hn) in E0. apply Qeq_bool_iff in E0. congruence.
Qed.

(** X6: [get_book_rating] reports an item as unrated, (None, 0), exactly when
    the sum of its ratings is 0, which includes an item whose ratings exist
    and cancel out or are all 0; otherwise it returns the exact average and
    the number of ratings. It never reports anything. *)
Theorem rating_hidden_by_zero_sum (db : database) i :
  (sql_sum (ratings_of db i) = 0%Z ->
   get_book_rating (Connected db) i = ((None, PyInt 0), []))
  /\ (sql_sum (ratings_of db i) <> 0%Z ->
      get_book_rating (Connected db) i
      = ((Some (Fin (inject_Z (sql_sum (ratings_of db i))
                     / inject_Z (sql_count (ratings_of db i)))),
          PyInt (sql_count (ratings_of db i))), [])).
Proof.
  rewrite get_book_rating_connected.
  split; intros E; destruct (Z.eqb_spec (sql_sum (ratings_of db i)) 0); congruence.
Qed.

Lemma sql_sum_bounds lo hi l :
  Forall (fun x => (lo <= x <= hi)%Z) l ->
  (lo * sql_count l <= sql_sum l <= hi * sql_count l)%Z.
Proof.
  unfold sql_count. induction 1 as [|x l Hx Hl IH]; simpl; [lia|].
  fold (sql_sum l). nia.
Qed.

(** X7: when an item has ratings and all of them lie between [lo] and [hi],
    [lo] being positive, [get_book_rating] returns their number and an
    average between [lo] and [hi]. *)
Theorem rating_average_within_bounds (db : database) i lo hi :
  ratings_of db i <> [] ->
  (0 < lo)%Z ->
  Forall (fun x => (lo <= x <= hi)%Z) (ratings_of db i) ->
  exists a,
    get_book_rating (Connected db) i
    = ((Some (Fin a), PyInt (sql_count (ratings_of db i))), [])
    /\ inject_Z lo <= a <= inject_Z hi.
Proof.
  intros Hne Hlo Hall. rewrite get_book_rating_connected.
  pose proof (sql_sum_bounds _ _ _ Hall) as [Hl Hh].
  assert (Hn : (0 < sql_count (ratings_of db i))%Z).
  { unfold sql_count. destruct (ratings_of db i); [congruence | cbn [length]; lia]. }
  destruct (Z.eqb_spec (sql_sum (ratings_of db i)) 0) as [E|_]; [nia|].
  eexists. split; [reflexivity|].
  assert (Hq : 0 < inject_Z (sql_count (ratings_of db i))).
  { unfold Qlt. simpl. lia. }
  split.
  - apply Qle_shift_div_l; [assumption|].
    rewrite <- inject_Z_mult, <- Zle_Qle. assumption.
  - apply Qle_shift_div_r; [assumption|].
    rewrite <- inject_Z_mult, <- Zle_Qle. assumption.
Qed.

Lemma embedding_query_none (db : database) i :
  (forall b, In b (books db) -> b_id b = i -> b_embedding b = None) ->
  embedding_query i db = Ok [].
Proof.
  intros Hb. unfold embedding_query. f_equal. apply flat_map_nil.
  intros b Ib. destruct (Z.eqb_spec (b_id b) i) as [E|]; [|reflexivity].
  now rewrite (Hb b Ib E).
Qed.

(** X8: for an id that no book with an embedding carries (an unknown id, or a
    book whose embedding is NULL), [get_book_embedding] returns None and
    reports nothing. *)
Theorem embedding_not_found (db : database) i :
  (forall b, In b (books db) -> b_id b = i -> b_embedding b = None) ->
  get_book_embedding (Connected db) i = (PyNone, []).
Proof.
  intros Hb. unfold get_book_embedding. cbn [execute].
  rewrite (embedding_query_none _ _ Hb). reflexivity.
Qed.

End RatingFacts.

Lemma rating_hidden_by_zero_sum_witness :
  @get_book_rating unit_store
    (Connected {| books := []; ratings := [rate 7 0 10; rate 7 0 20]; now := 30 |}) 7
  = ((None, PyInt 0), [])
  /\ @get_book_rating unit_store (Connected scenario_db) 2
     = ((Some (Fin (inject_Z 21 / inject_Z 5)), PyInt 5), []).
Proof.
  split.
  - apply (proj1 (@rating_hidden_by_zero_sum unit_store
                    {| books := []; ratings := [rate 7 0 10; rate 7 0 20]; now := 30 |} 7)).
    reflexivity.
  - apply (proj2 (@rating_hidden_by_zero_sum unit_store scenario_db 2)).
    vm_compute. discriminate.
Defined.

Lemma rating_average_within_bounds_witness :
  exists a,
    @get_book_rating unit_store (Connected scenario_db) 2
    = ((Some (Fin a), PyInt (sql_count (@ratings_of unit_store scenario_db 2))), [])
    /\ inject_Z 1 <= a <= inject_Z 5.
Proof.
  apply (@rating_average_within_bounds unit_store scenario_db 2 1 5).
  - vm_compute. discriminate.
  - lia.
  - vm_compute. repeat constructor; discriminate.
Defined.

Lemma embedding_not_found_witness :
  @get_book_embedding unit_store (Connected shelf_db) 1 = (PyNone, [])
  /\ @get_book_embedding unit_store (Connected shelf_db) 99 = (PyNone, []).
Proof.
  split; apply (@embedding_not_found unit_store shelf_db).
  - intros b [<-|[<-|[<-|[]]]]; simpl; intros E; try reflexivity; discriminate.
  - intros b [<-|[<-|[<-|[]]]]; simpl; intros E; try reflexivity; discriminate.
Defined.

(** ** The text encoding of an embedding, written by the seeding script and
    read by [get_book_embedding] *)

















(** ** More on [get_book_recommendations] *)

Section RecommendationFacts.
Context `{Store}.

(** X10: with a true exclusion id and a reference that the store resolves,
    for a limit that the store accepts (from 0 to 2^63 - 1) the number of
    recommendations is the smaller of the limit and the number of distinct
    candidate books, in whatever order the executor emits them: the function
    neither drops nor adds a row. For any other limit (negative, or 2^63 and
    more) the store refuses the statement, and the function returns the empty
    list and reports the failure once. *)
Theorem recommendations_count (db : database) ref limit ex z e :
  truthy_id ex = Some z -> reference_embedding db ref = Ok e ->
  ((0 <= limit < 2 ^ 63)%Z ->
   Z.of_nat (length (fst (get_book_recommendations (Connected db) ref limit ex)))
   = Z.min limit
       (Z.of_nat (length (distinct same_group (filter (candidate e z) (books db)))))
   /\ snd (get_book_recommendations (Connected db) ref limit ex) = [])
  /\ ((limit < 0 \/ 2 ^ 63 <= limit)%Z ->
      get_book_recommendations (Connected db) ref limit ex
      = ([], [st_error (ErrorGettingRecommendations DatabaseError)])).
Proof.
  intros Ez Er. split; intros Hl.
  - pose proof (fetch_results_connected _ _ _ _ _ _ Ez Er Hl) as Ef.
    destruct (recommendations_excluding _ _ _ _ _ _ Ez Ef)
      as (db' & e' & recs & _ & _ & _ & _ & Et & ->).
    cbn [fst snd]. split; [|reflexivity]. unfold sort_by_similarity.
    rewrite sort_by_length, (traverse_length _ _ _ Et), length_firstn.
    rewrite candidate_rows_keys, length_map, emitted_groups_length. lia.
  - unfold get_book_recommendations.
    now rewrite (fetch_results_refused _ _ _ _ Hl).
Qed.

Lemma insert_by_similarity_stable q (x : recommendation) l :
  filter (fun r => Qeq_bool (similarity_score r) q)
    (insert_by (fun a b => Qle_bool (similarity_score b) (similarity_score a)) x l)
  = filter (fun r => Qeq_bool (similarity_score r) q) (x :: l).
Proof.
  induction l as [|y t IH]; [reflexivity|].
  cbn [insert_by].
  destruct (Qle_bool (similarity_score y) (similarity_score x)) eqn:E; [reflexivity|].
  cbn [filter] in *. rewrite IH.
  destruct (Qeq_bool (similarity_score x) q) eqn:Ex; [|reflexivity].
  destruct (Qeq_bool (similarity_score y) q) eqn:Ey; [|reflexivity].
  apply Qeq_bool_iff in Ex, Ey.
  assert (Hle : similarity_score y <= similarity_score x) by (rewrite Ex, Ey; apply Qle_refl).
  apply Qle_bool_iff in Hle. congruence.
Qed.

Lemma sort_by_similarity_stable q l :
  filter (fun r => Qeq_bool (similarity_score r) q) (sort_by_similarity l)
  = filter (fun r => Qeq_bool (similarity_score r) q) l.
Proof.
  unfold sort_by_similarity. induction l as [|x t IH]; [reflexivity|].
  cbn [sort_by]. rewrite insert_by_similarity_stable. cbn [filter]. now rewrite IH.
Qed.

(** X11: the recommendations of one similarity score keep the order in which
    their rows were fetched: the ranking only moves a record past records of
    another score. *)
Theorem ties_keep_fetch_order conn ref limit ex results recs q :
  fetch_results conn ref limit ex = Ok results ->
  traverse build results = Ok recs ->
  filter (fun r => Qeq_bool (similarity_score r) q)
    (fst (get_book_recommendations conn ref limit ex))
  = filter (fun r => Qeq_bool (similarity_score r) q) recs.
Proof.
  intros Ef Et. unfold get_book_recommendations. rewrite Ef. cbn [bind].
  rewrite Et. cbn [bind fst]. apply sort_by_similarity_stable.
Qed.

Lemma avg_rating_agrees (db : database) i :
  avg_of_numeric (sql_avg (ratings_of db i))
  = fst (fst (get_book_rating (Connected db) i)).
Proof.
  unfold get_book_rating. cbn [execute]. unfold rating_summary_query. cbv zeta.
  cbn [bind fetchone hd_error index nth_error].
  destruct (sql_avg (ratings_of db i)) as [a|]; cbn [py_numeric truthy avg_of_numeric];
    [|reflexivity].
  destruct (Qeq_bool a 0); reflexivity.
Qed.

Lemma distinct_same_group_NoDup (l : list book) :
  NoDup l -> distinct same_group l = l.
Proof.
  induction 1 as [|a t Ha Ht IH]; [reflexivity|].
  cbn [distinct]. rewrite IH. f_equal. apply filter_all.
  intros x Ix. apply negb_true_iff.
  destruct (same_group a x) eqn:E; [|reflexivity].
  apply same_group_eq in E. subst x. contradiction.
Qed.

Lemma same_group_alone (l : list book) (k : book) :
  NoDup l -> In k l -> filter (same_group k) l = [k].
Proof.
  induction 1 as [|a t Ha Ht IH]; [intros []|].
  cbn [filter]. intros [->|I].
  - rewrite same_group_refl. f_equal. apply filter_none.
    intros x Ix. destruct (same_group k x) eqn:E; [|reflexivity].
    apply same_group_eq in E. subst x. contradiction.
  - destruct (same_group k a) eqn:E.
    + apply same_group_eq in E. subst a. contradiction.
    + now apply IH.
Qed.

Lemma firstn_map_comm {A B : Type} (f : A -> B) n l :
  firstn n (map f l) = map f (firstn n l).
Proof.
  revert l. induction n as [|n IH]; intros [|a l]; simpl; try reflexivity.
  now rewrite IH.
Qed.

Lemma traverse_map_in {A B C : Type} (f : B -> result C) (g : A -> B) (h : A -> C) l :
  (forall x, In x l -> f (g x) = Ok (h x)) -> traverse f (map g l) = Ok (map h l).
Proof.
  induction l as [|a t IH]; simpl; intros Hl; [reflexivity|].
  rewrite (Hl a (or_introl eq_refl)), IH; [reflexivity|].
  intros; apply Hl; now right.
Qed.

(** With unique identifiers: what the function returns, from the table. *)
Lemma recommendations_from_books (db : database) ref limit ex z e :
  NoDup (map b_id (books db)) ->
  truthy_id ex = Some z -> reference_embedding db ref = Ok e ->
  (0 <= limit < 2 ^ 63)%Z ->
  get_book_recommendations (Connected db) ref limit ex
  = (sort_by_similarity
       (map (expected_record db e)
            (firstn (Z.to_nat limit)
               (emitted_groups (filter (candidate e z) (books db))))), []).
Proof.
  intros Hnd Ez Er Hl.
  assert (Hb : NoDup (filter (candidate e z) (books db))).
  { apply NoDup_filter. eapply NoDup_map_inv. exact Hnd. }
  unfold get_book_recommendations.
  rewrite (fetch_results_connected _ _ _ _ _ _ Ez Er Hl). cbn [bind].
  rewrite candidate_rows_keys, (distinct_same_group_NoDup _ Hb), firstn_map_comm.
  rewrite (traverse_map_in _ _ (expected_record db e)); [reflexivity|].
  intros k Ik. apply in_firstn in Ik. apply (proj1 (emitted_groups_in _ _)) in Ik.
  rewrite single_candidate_row by (now apply same_group_alone).
  apply filter_In in Ik as [_ Ck].
  destruct (candidate_true _ _ _ Ck) as (q & Ed & _ & _).
  unfold expected_record. rewrite Ed. cbn [py_float8].
  rewrite build_row, avg_rating_agrees. reflexivity.
Qed.

Lemma firstn_whole {A : Type} n (l : list A) : (length l <= n)%nat -> firstn n l = l.
Proof.
  revert n. induction l as [|a t IH]; intros [|n]; simpl; intros Hn;
    try reflexivity; try lia.
  f_equal. apply IH. lia.
Qed.

(** X12: with unique identifiers and a limit that the store accepts, the
    recommendations are the records of the first [limit] candidate books in
    the order in which the executor emits their groups (an order that SQL
    leaves open), ranked by similarity; when the limit is at least the number
    of candidate books they are the records of all of them, whatever that
    order; each record carries the similarity max(0, 1 - d) of its book, the
    average that [get_book_rating] returns for it and the number of its
    ratings; and nothing is reported. *)
Theorem recommendations_with_unique_ids (db : database) ref limit ex z e :
  NoDup (map b_id (books db)) ->
  truthy_id ex = Some z -> reference_embedding db ref = Ok e ->
  (0 <= limit < 2 ^ 63)%Z ->
  snd (get_book_recommendations (Connected db) ref limit ex) = []
  /\ Permutation (fst (get_book_recommendations (Connected db) ref limit ex))
       (map (expected_record db e)
            (firstn (Z.to_nat limit)
               (emitted_groups (filter (candidate e z) (books db)))))
  /\ ((Z.of_nat (length (filter (candidate e z) (books db))) <= limit)%Z ->
      Permutation (fst (get_book_recommendations (Connected db) ref limit ex))
        (map (expected_record db e) (filter (candidate e z) (books db))))
  /\ (forall r, In r (fst (get_book_recommendations (Connected db) ref limit ex)) ->
        exists k q,
          In k (books db) /\ b_id k <> z
          /\ distance (b_embedding k) e = Some (Fin q) /\ q < 2
          /\ r = {| id := PyInt (b_id k); title := PyStr (b_title k);
                    similarity_score := max_0 (Fin (1 - q));
                    avg_rating := fst (fst (get_book_rating (Connected db) (b_id k)));
                    num_ratings := PyInt (sql_count (ratings_of db (b_id k))) |}).
Proof.
  intros Hnd Ez Er Hl. rewrite (recommendations_from_books _ _ _ _ _ _ Hnd Ez Er Hl).
  cbn [fst snd]. split; [reflexivity|]. split; [|split].
  - symmetry. apply sort_by_perm.
  - intros Hall. etransitivity; [symmetry; apply sort_by_perm|].
    apply Permutation_map. rewrite firstn_whole by (rewrite emitted_groups_length; lia).
    symmetry. apply emitted_groups_perm.
  - intros r I. apply sort_by_in, in_map_iff in I as (k & <- & Ik).
    apply in_firstn in Ik. apply (proj1 (emitted_groups_in _ _)) in Ik.
    apply filter_In in Ik as [Ik Ck].
    destruct (candidate_true _ _ _ Ck) as (q & Ed & Hq & Hid).
    exists k, q. repeat split; auto. unfold expected_record. now rewrite Ed.
Qed.

Lemma NoDup_map_filter {A B : Type} (f : A -> B) (p : A -> bool) l :
  NoDup (map f l) -> NoDup (map f (filter p l)).
Proof.
  induction l as [|a t IH]; simpl; [auto|].
  intros Hnd. apply NoDup_cons_iff in Hnd as [Hnot Hnd].
  destruct (p a); simpl; [|auto].
  constructor; [|auto].
  intros I. apply Hnot. apply in_map_iff in I as (x & E & Ix).
  apply filter_In in Ix as [Ix _]. rewrite <- E. now apply in_map.
Qed.

Lemma NoDup_firstn_kept {A : Type} n (l : list A) : NoDup l -> NoDup (firstn n l).
Proof.
  intros Hnd. revert n. induction Hnd as [|a t Ha Ht IH]; intros [|n]; simpl;
    try constructor; auto.
  intros I. apply Ha. now apply in_firstn in I.
Qed.

(** X13: with unique identifiers no two recommendations carry the same
    id. *)
Theorem recommendations_have_distinct_ids (db : database) ref limit ex :
  NoDup (map b_id (books db)) ->
  NoDup (map id (fst (get_book_recommendations (Connected db) ref limit ex))).
Proof.
  intros Hnd.
  destruct (recommendations_sorted_or_empty (Connected db) ref limit ex)
    as [-> | (results & recs & Ef & Et & Eg)]; [constructor|].
  destruct (truthy_id ex) as [z|] eqn:Ez.
  - destruct (fetch_results_excluding _ _ _ _ _ _ Ez Ef) as (db' & e & [= <-] & Er & Hl & _).
    rewrite (recommendations_from_books _ _ _ _ _ _ Hnd Ez Er Hl). cbn [fst].
    eapply Permutation_NoDup; [apply Permutation_map, sort_by_perm|].
    rewrite map_map. cbn [expected_record id].
    rewrite <- (map_map b_id PyInt).
    apply NoDup_map_NoDup_ForallPairs; [intros x y _ _ [= E]; exact E|].
    rewrite <- firstn_map_comm. apply NoDup_firstn_kept.
    eapply Permutation_NoDup; [apply Permutation_map, emitted_groups_perm|].
    now apply NoDup_map_filter.
  - rewrite Eg. cbn [fst].
    rewrite (nothing_built_without_exclusion _ _ _ _ _ _ Ez Ef Et). constructor.
Qed.

End RecommendationFacts.

Lemma recommendations_count_witness :
  (Z.of_nat (length (fst (@get_book_recommendations unit_store (Connected scenario_db)
                            1 1 (Some 1%Z))))
   = Z.min 1 (Z.of_nat (length (distinct (@same_group unit_store)
                                  (filter (@candidate unit_store (Some [1; 0; 0]) 1)
                                     (@books unit_store scenario_db)))))
   /\ snd (@get_book_recommendations unit_store (Connected scenario_db) 1 1 (Some 1%Z))
      = [])
  /\ @get_book_recommendations unit_store (Connected scenario_db) 1 (2 ^ 63) (Some 1%Z)
     = ([], [st_error (ErrorGettingRecommendations DatabaseError)]).
Proof.
  split.
  - apply (proj1 (@recommendations_count unit_store scenario_db 1 1 (Some 1%Z) 1
                    (Some [1; 0; 0]) eq_refl eq_refl)).
    lia.
  - apply (proj2 (@recommendations_count unit_store scenario_db 1 (2 ^ 63) (Some 1%Z) 1
                    (Some [1; 0; 0]) eq_refl eq_refl)).
    right. lia.
Defined.

(** In [tie_db] the books 2 and 3 both score 0; they stay in scan order
    behind the book 4, which scores 1 and was fetched between them. *)
Lemma tie_db_recommendations :
  map id (fst (@get_book_recommendations unit_store (Connected tie_db) 1 10 (Some 1%Z)))
  = [PyInt 4; PyInt 2; PyInt 3].
Proof. vm_compute. reflexivity. Qed.

Lemma ties_keep_fetch_order_witness :
  filter (fun r => Qeq_bool (similarity_score r) 0)
    (fst (@get_book_recommendations unit_store (Connected tie_db) 1 10 (Some 1%Z)))
  = filter (fun r => Qeq_bool (similarity_score r) 0)
      [ {| id := PyInt 2; title := PyStr "B"; similarity_score := 0;
           avg_rating := None; num_ratings := PyInt 0 |};
        {| id := PyInt 4; title := PyStr "D"; similarity_score := 1;
           avg_rating := None; num_ratings := PyInt 0 |};
        {| id := PyInt 3; title := PyStr "C"; similarity_score := 0;
           avg_rating := None; num_ratings := PyInt 0 |} ].
Proof.
  apply (@ties_keep_fetch_order unit_store (Connected tie_db) 1 10 (Some 1%Z)
           [[PyInt 2; PyStr "B"; PyFloat (Fin 1); PyNone; PyInt 0];
            [PyInt 4; PyStr "D"; PyFloat (Fin 0); PyNone; PyInt 0];
            [PyInt 3; PyStr "C"; PyFloat (Fin 1); PyNone; PyInt 0]]).
  - vm_compute. reflexivity.
  - vm_compute. reflexivity.
Defined.

Lemma scenario_unique_ids : NoDup (map b_id (@books unit_store scenario_db)).
Proof. simpl. repeat constructor; simpl; intuition lia. Qed.

Lemma recommendations_with_unique_ids_witness :
  snd (@get_book_recommendations unit_store (Connected scenario_db) 1 10 (Some 1%Z)) = []
  /\ Permutation
       (fst (@get_book_recommendations unit_store (Connected scenario_db) 1 10 (Some 1%Z)))
       (map (@expected_record unit_store scenario_db (Some [1; 0; 0]))
            (firstn (Z.to_nat 10)
               (@emitted_groups unit_store
                  (filter (@candidate unit_store (Some [1; 0; 0]) 1)
                     (@books unit_store scenario_db)))))
  /\ ((Z.of_nat (length (filter (@candidate unit_store (Some [1; 0; 0]%Q) 1)
                           (@books unit_store scenario_db))) <= 10)%Z ->
      Permutation
        (fst (@get_book_recommendations unit_store (Connected scenario_db) 1 10 (Some 1%Z)))
        (map (@expected_record unit_store scenario_db (Some [1; 0; 0]))
             (filter (@candidate unit_store (Some [1; 0; 0]) 1)
                (@books unit_store scenario_db))))
  /\ (forall r,
        In r (fst (@get_book_recommendations unit_store (Connected scenario_db) 1 10
                     (Some 1%Z))) ->
        exists k q,
          In k (@books unit_store scenario_db) /\ b_id k <> 1%Z
          /\ @distance unit_store (b_embedding k) (Some [1; 0; 0]) = Some (Fin q) /\ q < 2
          /\ r = {| id := PyInt (b_id k); title := PyStr (b_title k);
                    similarity_score := max_0 (Fin (1 - q));
                    avg_rating := fst (fst (@get_book_rating unit_store
                                              (Connected scenario_db) (b_id k)));
                    num_ratings := PyInt (sql_count (@ratings_of unit_store scenario_db
                                                       (b_id k))) |}).
Proof.
  apply (@recommendations_with_unique_ids unit_store scenario_db 1 10 (Some 1%Z) 1
           (Some [1; 0; 0])).
  - exact scenario_unique_ids.
  - reflexivity.
  - reflexivity.
  - lia.
Defined.

Lemma recommendations_have_distinct_ids_witness :
  NoDup (map id (fst (@get_book_recommendations unit_store (Connected scenario_db) 1 10
                        (Some 1%Z)))).
Proof.
  apply (@recommendations_have_distinct_ids unit_store scenario_db 1 10 (Some 1%Z)).
  exact scenario_unique_ids.
Defined.

(** ** The helpers of [main] *)

Lemma length_append (a b : string) :
  String.length (a ++ b) = (String.length a + String.length b)%nat.
Proof. induction a as [|c a IH]; simpl; [reflexivity | now rewrite IH]. Qed.

Lemma length_substring_0 n (s : string) :
  String.length (substring 0 n s) = Nat.min n (String.length s).
Proof.
  revert s. induction n as [|n IH]; intros [|c s]; simpl; try reflexivity.
  now rewrite IH.
Qed.

Lemma substring_0_append n (a b : string) :
  (n <= String.length a)%nat -> substring 0 n (a ++ b) = substring 0 n a.
Proof.
  revert a. induction n as [|n IH]; intros [|c a]; simpl; intros Hn;
    try reflexivity; try lia.
  - now destruct b.
  - rewrite IH; [reflexivity | lia].
Qed.

Lemma substring_0_all n (s : string) :
  (String.length s <= n)%nat -> substring 0 n s = s.
Proof.
  revert s. induction n as [|n IH]; intros [|c s]; simpl; intros Hn;
    try reflexivity; try lia.
  rewrite IH; [reflexivity | lia].
Qed.

Lemma title_short_kept (x : string) :
  (String.length x <= 40)%nat -> title_short x = x.
Proof.
  intros Hx. unfold title_short.
  destruct (Nat.ltb_spec 40 (String.length x)); [lia | reflexivity].
Qed.

Lemma title_short_cut (x : string) :
  (40 < String.length x)%nat -> title_short x = (substring 0 40 x ++ "...")%string.
Proof.
  intros Hx. unfold title_short.
  destruct (Nat.ltb_spec 40 (String.length x)); [reflexivity | lia].
Qed.

(** X14: the shortened title of the leaderboard is the title itself when it
    has at most 40 characters, and otherwise its first 40 characters followed
    by three dots, 43 characters in all; shortening a shortened title changes
    nothing. *)
Theorem title_short_spec (x : string) :
  (String.length (title_short x) <= 43)%nat
  /\ ((String.length x <= 40)%nat -> title_short x = x)
  /\ ((40 < String.length x)%nat ->
      title_short x = (substring 0 40 x ++ "...")%string
      /\ String.length (title_short x) = 43%nat)
  /\ title_short (title_short x) = title_short x.
Proof.
  assert (Hcut : (40 < String.length x)%nat ->
                 String.length (substring 0 40 x ++ "...") = 43%nat).
  { intros Hx. rewrite length_append, length_substring_0.
    change (String.length "...") with 3%nat. lia. }
  destruct (Nat.le_gt_cases (String.length x) 40) as [Hshort|Hlong].
  - rewrite (title_short_kept x Hshort).
    split; [lia|]. split; [auto|]. split; [lia|]. now apply title_short_kept.
  - rewrite (title_short_cut x Hlong), (Hcut Hlong).
    split; [lia|]. split; [lia|]. split; [auto|].
    rewrite title_short_cut by (rewrite (Hcut Hlong); lia).
    rewrite substring_0_append by (rewrite length_substring_0; lia).
    rewrite (substring_0_all 40 (substring 0 40 x)); [reflexivity|].
    rewrite length_substring_0. lia.
Qed.

Lemma prefix_empty (s : string) : prefix EmptyString s = true.
Proof. now destruct s. Qed.

(** A title that does not begin with the separator cannot begin with it once
    the label is appended: no end of [" (ID:"] is a beginning of it. *)
Lemma separator_does_not_overlap (c : ascii) (t rest : string) :
  prefix " (ID:" (String c t) = false ->
  prefix " (ID:" (String c t ++ " (ID:" ++ rest) = false.
Proof.
  intros Hp.
  destruct t as [|c2 [|c3 [|c4 [|c5 t]]]];
    repeat (cbn [prefix append] in Hp |- *;
            match goal with
            | |- context [ascii_dec ?a ?b] =>
                destruct (ascii_dec a b) as [e|e];
                [try discriminate e; try subst | try reflexivity]
            end).
  cbn [prefix append] in Hp |- *. rewrite prefix_empty in Hp. discriminate.
Qed.

Lemma before_first_label (title rest : string) :
  occurs " (ID:" title = false ->
  before_first " (ID:" (title ++ " (ID:" ++ rest) = title.
Proof.
  induction title as [|c t IH]; intros Ho.
  - cbn. now rewrite prefix_empty.
  - cbn [occurs] in Ho. apply orb_false_iff in Ho as [Hp Ho].
    change (String c t ++ " (ID:" ++ rest)%string
      with (String c (t ++ " (ID:" ++ rest)) at 1.
    cbn [before_first].
    change (String c (t ++ " (ID:" ++ rest)) with (String c t ++ " (ID:" ++ rest)%string.
    rewrite (separator_does_not_overlap _ _ _ Hp).
    now rewrite (IH Ho).
Qed.

(** X15: from the label that [main] builds for a book, the title shown for
    the selection is the title of the book, provided the title does not
    itself contain the text [" (ID:"]. *)
Theorem selected_title_is_the_title (title : string) (book_id : Z) :
  occurs " (ID:" title = false ->
  selected_book_title (option_label title book_id) = title.
Proof.
  intros Ho. unfold selected_book_title, option_label.
  change (title ++ " (ID: " ++ str_of_int book_id ++ ")")%string
    with (title ++ " (ID:" ++ (" " ++ str_of_int book_id ++ ")"))%string.
  now apply before_first_label.
Qed.

Lemma selected_title_is_the_title_witness :
  selected_book_title (option_label "Dune by Frank Herbert" 12) = "Dune by Frank Herbert"%string.
Proof.
  apply selected_title_is_the_title. reflexivity.
Defined.

(** A title that contains the separator is cut at its first occurrence. *)
Lemma selected_title_cut_example :
  selected_book_title (option_label "Notes (ID: draft)" 7) = "Notes"%string.
Proof. reflexivity. Qed.

Lemma title_short_spec_witness :
  title_short "Emma" = "Emma"%string
  /\ title_short "The Girl Who Kicked the Hornet's Nest by Stieg Larsson"
     = "The Girl Who Kicked the Hornet's Nest by..."%string.
Proof.
  split.
  - apply (proj1 (proj2 (title_short_spec "Emma"))). simpl. lia.
  - apply (proj1 (proj2 (proj2 (title_short_spec
             "The Girl Who Kicked the Hornet's Nest by Stieg Larsson")))).
    simpl. lia.
Defined.

(** ** The workload runner *)

Lemma workload_fold delay runs w :
  successful_queries (fold_left (iteration delay) runs w)
  = (successful_queries w + Z.of_nat (length runs))%Z
  /\ failed_queries (fold_left (iteration delay) runs w)
     = (if Qle_bool 0 delay then failed_queries w
        else failed_queries w + Z.of_nat (length runs))%Z
  /\ total_execution_time (fold_left (iteration delay) runs w)
     = fold_left (fun t r => t + fst (run_slow_query r)) runs (total_execution_time w).
Proof.
  revert w. induction runs as [|r runs IH]; intros w.
  - cbn [fold_left length]. destruct (Qle_bool 0 delay); repeat split; lia.
  - cbn [fold_left length]. destruct (IH (iteration delay w r)) as (Hs & Hf & Ht).
    rewrite Hs, Hf, Ht. unfold iteration. cbn [successful_queries failed_queries
                                                total_execution_time].
    destruct (Qle_bool 0 delay); repeat split; lia.
Qed.


(** X17: without any turn [run_workload] does not return: the summary
    divides by the number of successful queries, which is 0. With a turn it
    always returns. *)
Theorem workload_without_turns_raises runs delay :
  run_workload runs delay = ZeroDivision <-> runs = [].
Proof.
  split.
  - intros E. destruct runs as [|r runs]; [reflexivity|].
    unfold run_workload in E. cbv zeta in E.
    destruct (workload_fold delay (r :: runs)
                {| total_execution_time := 0; successful_queries := 0;
                   failed_queries := 0 |}) as (Hs & _ & _).
    cbn [successful_queries] in Hs. rewrite Hs in E.
    destruct (Z.eqb_spec (0 + Z.of_nat (length (r :: runs))) 0) as [E0|_];
      [cbn [length] in E0; lia | discriminate].
  - intros ->. reflexivity.
Qed.

